(** * statjson: file metadata as a JSON document

    A shallow embedding of [statjson.py].  The script calls [os.stat] on each
    of its command-line arguments, turns every answer (or every failure)
    into an ordered dictionary, prints the list of these dictionaries with
    [json.dumps] and exits with 0 or 1.

    Conventions of the embedding:
    - Python integers are [Z]; [&] is [Z.land], which agrees with Python on
      negative numbers as well (both use infinite two's complement).
      [stat.S_IFMT] is total here, as the Python version of the [stat]
      module is; the C version (Python 3.4 and later) raises for a mode
      outside [mode_t], which no [st_mode] is.
    - Python strings are the [str] of Python 3, modelled as [string]: a
      character stands for the code point with the same number (code points
      above 255 are not represented).  Under Python 2 the arguments are byte
      strings, which [json] decodes before it escapes them; that is not
      modelled.
    - An [OrderedDict] is an association list in insertion order.
    - [file_types] is a [defaultdict]: reading a missing key stores the
      default under that key.  The table is therefore threaded through the
      program as state.
    - The operating system, the account databases and the float printer are
      parameters.  The loop of [main] asks the system once per iteration, so
      each primitive takes the number of the iteration as its clock: the
      file system may change while the program runs. *)

From Stdlib Require Import ZArith String Ascii List Lia Bool.
From stdpp Require Import base option gmap strings list.

Set Warnings "-clear-no-such-hyp".

Open Scope string_scope.
Open Scope Z_scope.

(** ** The [stat] module of the standard library *)

Module stat.

(* file type bits: 0o170000 *)
Definition S_IFMT (mode : Z) : Z := Z.land mode 0xF000.

(* permission bits, with setuid, setgid and sticky: 0o7777 *)
Definition S_IMODE (mode : Z) : Z := Z.land mode 0xFFF.

Definition S_IFIFO  : Z := 0x1000. (* 0o010000 *)
Definition S_IFCHR  : Z := 0x2000. (* 0o020000 *)
Definition S_IFDIR  : Z := 0x4000. (* 0o040000 *)
Definition S_IFBLK  : Z := 0x6000. (* 0o060000 *)
Definition S_IFREG  : Z := 0x8000. (* 0o100000 *)
Definition S_IFLNK  : Z := 0xA000. (* 0o120000 *)
Definition S_IFSOCK : Z := 0xC000. (* 0o140000 *)

Definition S_ISUID : Z := 0x800. (* 0o4000 *)
Definition S_ISGID : Z := 0x400. (* 0o2000 *)
Definition S_ISVTX : Z := 0x200. (* 0o1000 *)

Definition S_IRUSR : Z := 0x100. (* 0o0400 *)
Definition S_IWUSR : Z := 0x80.  (* 0o0200 *)
Definition S_IXUSR : Z := 0x40.  (* 0o0100 *)
Definition S_IRGRP : Z := 0x20.  (* 0o0040 *)
Definition S_IWGRP : Z := 0x10.  (* 0o0020 *)
Definition S_IXGRP : Z := 0x8.   (* 0o0010 *)
Definition S_IROTH : Z := 0x4.   (* 0o0004 *)
Definition S_IWOTH : Z := 0x2.   (* 0o0002 *)
Definition S_IXOTH : Z := 0x1.   (* 0o0001 *)

End stat.

(** ** Python values used by the script *)

(** Truth value of an integer: [bool(n)], and [n] as a condition. *)
Definition truthy (n : Z) : bool := negb (n =? 0).

(** [s[bool(n)]] for a string [s]: [False] is index 0 and [True] index 1.
    The result is a string of one character (the script only indexes
    strings of two characters, so [IndexError] cannot be raised). *)
Definition str_item (s : string) (b : bool) : string :=
  substring (if b then 1%nat else 0%nat) 1 s.

(** ** The [defaultdict] of file types *)

(** A program that reads and updates the shared table. *)
Definition Py (A : Type) : Type := gmap Z (string * string) → A * gmap Z (string * string).

#[global] Instance Py_ret : MRet Py := λ A (x : A) tbl, (x, tbl).
#[global] Instance Py_bind : MBind Py := λ A B (f : A → Py B) (m : Py A) tbl,
  let '(x, tbl') := m tbl in f x tbl'.

(** [lambda: ('?', 'unknown')] *)
Definition default_factory : string * string := ("?", "unknown").

(** [file_types[key]]: a missing key is first bound to the default. *)
Definition getitem (key : Z) : Py (string * string) := λ tbl,
  match tbl !! key with
  | Some entry => (entry, tbl)
  | None => (default_factory, <[key := default_factory]> tbl)
  end.

(** The value [file_types[key]] evaluates to, without the update. *)
Definition entry_of (tbl : gmap Z (string * string)) (key : Z) : string * string :=
  default default_factory (tbl !! key).

(** The dictionary literal given to [defaultdict]. *)
Definition file_types_literal : gmap Z (string * string) :=
  list_to_map [
    (stat.S_IFBLK,  ("b", "block_device"));
    (stat.S_IFCHR,  ("c", "char_device"));
    (stat.S_IFDIR,  ("d", "directory"));
    (stat.S_IFIFO,  ("p", "FIFO"));
    (stat.S_IFLNK,  ("l", "symlink"));
    (stat.S_IFREG,  ("-", "regular_file"));
    (stat.S_IFSOCK, ("s", "socket"))
  ].

(** The interpreter and the platform: whether [sys.version_info[:2] >= (3,4)]
    and the values the [stat] module gives to the three type codes that only
    some systems have (0 on a system without them). *)
Record platform := {
  version_ge_3_4 : bool;
  S_IFDOOR : Z;
  S_IFPORT : Z;
  S_IFWHT : Z;
}.

(** [file_types] once the module is loaded. *)
Definition file_types (pf : platform) : gmap Z (string * string) :=
  if version_ge_3_4 pf then
    <[S_IFWHT pf := ("w", "whiteout")]>
      (<[S_IFPORT pf := ("P", "event_port")]>
         (<[S_IFDOOR pf := ("D", "door")]> file_types_literal))
  else file_types_literal.

(** ** [strmode] *)

Definition strmode (mode : Z) : Py string :=
  entry ← getitem (stat.S_IFMT mode);
  mret (entry.1
        ++ (if truthy (Z.land mode stat.S_IRUSR) then "r" else "-")
        ++ (if truthy (Z.land mode stat.S_IWUSR) then "w" else "-")
        ++ str_item (if truthy (Z.land mode stat.S_ISUID) then "Ss" else "-x")
                    (truthy (Z.land mode stat.S_IXUSR))
        ++ (if truthy (Z.land mode stat.S_IRGRP) then "r" else "-")
        ++ (if truthy (Z.land mode stat.S_IWGRP) then "w" else "-")
        ++ str_item (if truthy (Z.land mode stat.S_ISGID) then "Ss" else "-x")
                    (truthy (Z.land mode stat.S_IXGRP))
        ++ (if truthy (Z.land mode stat.S_IROTH) then "r" else "-")
        ++ (if truthy (Z.land mode stat.S_IWOTH) then "w" else "-")
        ++ str_item (if truthy (Z.land mode stat.S_ISVTX) then "Tt" else "-x")
                    (truthy (Z.land mode stat.S_IXOTH))
        ++ " ").

(** ** Printing integers *)

(** The digit [d] of a numeral, for [0 <= d < 16]. *)
Definition digit_char (d : Z) : ascii :=
  default "?"%char (String.get (Z.to_nat d) "0123456789abcdef").

(** The digits of [n >= 0] in [base], most significant first, put in front
    of [acc].  [fuel] bounds the number of digits after the first. *)
Fixpoint digits_aux (base : Z) (fuel : nat) (n : Z) (acc : string) : string :=
  let acc' := String (digit_char (n mod base)) acc in
  match fuel with
  | O => acc'
  | S fuel' => if n <? base then acc' else digits_aux base fuel' (n / base) acc'
  end.

Definition digits (base n : Z) : string :=
  digits_aux base (Z.to_nat (Z.log2 n)) n "".

(** [int.__repr__] for base 10 and the presentation [o] of [str.format] for
    base 8: a minus sign, if any, then the digits of the absolute value. *)
Definition int_to_base (base n : Z) : string :=
  if n <? 0 then "-" ++ digits base (- n) else digits base n.

(** ['0{0:0o}'.format(n)]: in the format specification [0o] the [0] asks for
    zero padding up to a width that is not given, so nothing is padded. *)
Definition format_mode_octal (n : Z) : string := "0" ++ int_to_base 8 n.

(** ** The [json] module of the standard library *)

Definition dquote : ascii := "034"%char.
Definition backslash : ascii := "092"%char.
Definition newline : ascii := "010"%char.

Section Json.

#[local] Set Warnings "-register-all".

(** Python floats are opaque; [float_repr] is the text [json] writes for
    one ([float.__repr__], or [NaN], [Infinity], [-Infinity]). *)
Context {PyFloat : Type}.
Variable float_repr : PyFloat → string.

(** The Python values the script builds.  A dictionary is an
    [OrderedDict] with string keys, kept in insertion order. *)
Inductive value : Type :=
  | VNone
  | VBool (b : bool)
  | VInt (n : Z)
  | VFloat (x : PyFloat)
  | VStr (s : string)
  | VList (l : list value)
  | VDict (d : list (string * value)).

(** [d[key]] and [key in d] *)
Fixpoint odict_get (d : list (string * value)) (key : string) : option value :=
  match d with
  | [] => None
  | (k, v) :: rest => if String.eqb k key then Some v else odict_get rest key
  end.

(** [d[key] = v]: a key already present keeps its place. *)
Fixpoint odict_set (d : list (string * value)) (key : string) (v : value)
  : list (string * value) :=
  match d with
  | [] => [(key, v)]
  | (k, v') :: rest =>
      if String.eqb k key then (k, v) :: rest else (k, v') :: odict_set rest key v
  end.

(** [d[key][key2] = v], where [d[key]] is a dictionary: the inner
    dictionary is updated in place, so [d] sees the new entry. *)
Definition odict_set_in (d : list (string * value)) (key key2 : string) (v : value)
  : list (string * value) :=
  match odict_get d key with
  | Some (VDict inner) => odict_set d key (VDict (odict_set inner key2 v))
  | _ => d
  end.

(** [py_encode_basestring_ascii] on one character. *)
Definition escape_char (c : ascii) : string :=
  let n := Z.of_N (N_of_ascii c) in
  if n =? 34 then String backslash (String dquote "")
  else if n =? 92 then String backslash (String backslash "")
  else if n =? 10 then String backslash "n"
  else if n =? 13 then String backslash "r"
  else if n =? 9 then String backslash "t"
  else if n =? 12 then String backslash "f"
  else if n =? 8 then String backslash "b"
  else if (32 <=? n) && (n <=? 126) then String c ""
  else String backslash
         ("u00" ++ String (digit_char (n / 16)) (String (digit_char (n mod 16)) "")).

Fixpoint escape (s : string) : string :=
  match s with
  | EmptyString => ""
  | String c rest => escape_char c ++ escape rest
  end.

Definition encode_basestring_ascii (s : string) : string :=
  String dquote (escape s ++ String dquote "").

Section Encoder.

(** [json.dumps(obj, indent=indent, separators=(item_separator,
    key_separator))] with an integer [indent], as [_make_iterencode]
    of [json.encoder] computes it; the chunks it yields are joined. *)
Variable indent : nat.
Variable item_separator key_separator : string.

Fixpoint spaces (n : nat) : string :=
  match n with
  | O => ""
  | S n' => String " " (spaces n')
  end.

(** ['\n' + ' ' * (indent * level)] *)
Definition newline_indent (level : nat) : string :=
  String newline (spaces (indent * level)).

Fixpoint iterencode (o : value) (current_indent_level : nat) : string :=
  match o with
  | VStr s => encode_basestring_ascii s
  | VNone => "null"
  | VBool true => "true"
  | VBool false => "false"
  | VInt n => int_to_base 10 n
  | VFloat x => float_repr x
  | VList [] => "[]"
  | VList lst =>
      let level := S current_indent_level in
      "[" ++ newline_indent level
          ++ String.concat (item_separator ++ newline_indent level)
               (map (λ item, iterencode item level) lst)
          ++ newline_indent current_indent_level ++ "]"
  | VDict [] => "{}"
  | VDict dct =>
      let level := S current_indent_level in
      "{" ++ newline_indent level
          ++ String.concat (item_separator ++ newline_indent level)
               (map (λ kv, encode_basestring_ascii kv.1 ++ key_separator
                             ++ iterencode kv.2 level) dct)
          ++ newline_indent current_indent_level ++ "}"
  end.

Definition dumps (obj : value) : string := iterencode obj 0.

End Encoder.

End Json.

Arguments value : clear implicits.

(** ** What the system answers *)

(** The exception [os.stat] raised: [e.__class__.__name__] and [str(e)]. *)
Record exception := {
  class_name : string;
  message : string;
}.

(** The object [os.stat] returns.  [st_attr] is [getattr] on one of the
    attributes that only some systems have: [None] is [AttributeError]. *)
Record stat_result {PyFloat : Type} := {
  st_mode : Z;
  st_ino : Z;
  st_dev : Z;
  st_nlink : Z;
  st_uid : Z;
  st_gid : Z;
  st_size : Z;
  st_atime : PyFloat;
  st_mtime : PyFloat;
  st_ctime : PyFloat;
  st_attr : string → option (value PyFloat);
}.

Arguments stat_result : clear implicits.

(** The calls into the system.  The first argument is the number of the
    loop iteration that makes the call.  [pwd.getpwuid(uid).pw_name] and
    [grp.getgrgid(gid).gr_name] give [None] for [KeyError]. *)
Record system {PyFloat : Type} := {
  os_stat : nat → string → exception + stat_result PyFloat;
  os_path_islink : nat → string → bool;
  pwd_getpwuid : nat → Z → option string;
  grp_getgrgid : nat → Z → option string;
}.

Arguments system : clear implicits.

(** ** The script *)

Definition extra_fields : list (string * string) := [
  ("st_blocks", "blocks");
  ("st_blksize", "block_size");
  ("st_rdev", "rdev");
  ("st_flags", "flags");
  ("st_gen", "generation");
  ("st_birthtime", "creation_time");
  ("st_ftype", "ftype");
  ("st_attrs", "attributes");
  ("st_obtype", "object_type");
  ("st_rsize", "real_size");
  ("st_creator", "creator");
  ("st_type", "st_type");
  ("st_file_attributes", "file_attributes")
].

Section Main.

Context {PyFloat : Type}.
Variable float_repr : PyFloat → string.
Variable sys : system PyFloat.

(** [None] for a name that is not found, the name otherwise. *)
Definition name_value (name : option string) : value PyFloat :=
  match name with
  | Some s => VStr s
  | None => VNone
  end.

(** One step of [for attr, name in extra_fields]. *)
Definition add_extra (st : stat_result PyFloat) (about : list (string * value PyFloat))
    (field : string * string) : list (string * value PyFloat) :=
  match st_attr st field.1 with
  | Some v => odict_set about field.2 v
  | None => about
  end.

(** The [else] branch of the [try]: [os.stat] returned [st]. *)
Definition describe (k : nat) (filename : string) (st : stat_result PyFloat)
    (about : list (string * value PyFloat)) : Py (list (string * value PyFloat)) :=
  let about := odict_set about "success" (VBool true) in
  let about := odict_set about "followed_symlink" (VBool (os_path_islink sys k filename)) in
  entry ← getitem (stat.S_IFMT (st_mode st));
  let about := odict_set about "filetype" (VStr entry.2) in
  let about := odict_set about "mode" (VInt (st_mode st)) in
  let about := odict_set about "mode_octal" (VStr (format_mode_octal (st_mode st))) in
  mode_str ← strmode (st_mode st);
  let about := odict_set about "mode_str" (VStr mode_str) in
  let about := odict_set about "inode" (VInt (st_ino st)) in
  let about := odict_set about "device" (VInt (st_dev st)) in
  let about := odict_set about "links" (VInt (st_nlink st)) in
  let about := odict_set about "owner" (VDict []) in
  let about := odict_set_in about "owner" "uid" (VInt (st_uid st)) in
  let about := odict_set_in about "owner" "name"
                 (name_value (pwd_getpwuid sys k (st_uid st))) in
  let about := odict_set about "group" (VDict []) in
  let about := odict_set_in about "group" "gid" (VInt (st_gid st)) in
  let about := odict_set_in about "group" "name"
                 (name_value (grp_getgrgid sys k (st_gid st))) in
  let about := odict_set about "size" (VInt (st_size st)) in
  let about := odict_set about "access_time" (VFloat (st_atime st)) in
  let about := odict_set about "modify_time" (VFloat (st_mtime st)) in
  let about := odict_set about "change_time" (VFloat (st_ctime st)) in
  mret (fold_left (add_extra st) extra_fields about).

(** The body of the loop of [main] in iteration [k]: the dictionary that
    is appended to [stats], and the new value of [ok]. *)
Definition visit (k : nat) (filename : string) (ok : bool)
    : Py (list (string * value PyFloat) * bool) :=
  let about := [] in
  let about := odict_set about "filename" (VStr filename) in
  match os_stat sys k filename with
  | inl e =>
      let about := odict_set about "success" (VBool false) in
      let about := odict_set about "error"
                     (VDict (odict_set (odict_set [] "class" (VStr (class_name e)))
                                       "message" (VStr (message e)))) in
      mret (about, false)
  | inr st =>
      about ← describe k filename st about;
      mret (about, ok)
  end.

(** [for filename in ...] from iteration [k] on. *)
Fixpoint loop (k : nat) (filenames : list string)
    (stats : list (list (string * value PyFloat))) (ok : bool)
    : Py (list (list (string * value PyFloat)) * bool) :=
  match filenames with
  | [] => mret (stats, ok)
  | filename :: rest =>
      '(about, ok) ← visit k filename ok;
      loop (S k) rest (stats ++ [about])%list ok
  end.

(** What the process leaves behind. *)
Record outcome := {
  stats_of : list (list (string * value PyFloat));
  stdout : string;
  exit_status : Z;
}.

(** [print(s)] *)
Definition print (s : string) : string := s ++ String newline "".

Definition main (argv : list string) : Py outcome :=
  '(stats, ok) ← loop 0 (drop 1 argv) [] true;
  mret {| stats_of := stats;
          stdout := print (dumps float_repr 4 "," ": " (VList (map VDict stats)));
          exit_status := match ok with true => 0 | false => 1 end |}.

End Main.

(** ** Derived notions used in the statements *)

(** [t'] answers every lookup the way [t] does. *)
Definition reads_like (t t' : gmap Z (string * string)) : Prop :=
  ∀ key, entry_of t' key = entry_of t key.

(** The table after the keys [keys] were looked up one after the other. *)
Definition after_lookups (keys : list Z) (tbl : gmap Z (string * string))
    : gmap Z (string * string) :=
  fold_left (λ t key, (getitem key t).2) keys tbl.

(** The seven keys of the dictionary literal. *)
Definition standard_keys : list Z :=
  [stat.S_IFBLK; stat.S_IFCHR; stat.S_IFDIR; stat.S_IFIFO; stat.S_IFLNK;
   stat.S_IFREG; stat.S_IFSOCK].

(** Every pair the table can hold. *)
Definition known_entries : list (string * string) :=
  [("b", "block_device"); ("c", "char_device"); ("d", "directory"); ("p", "FIFO");
   ("l", "symlink"); ("-", "regular_file"); ("s", "socket");
   ("D", "door"); ("P", "event_port"); ("w", "whiteout"); ("?", "unknown")].

(** The three optional type codes do not take the place of one of the
    seven: each is 0 or a code of its own. *)
Definition platform_ok (pf : platform) : Prop :=
  version_ge_3_4 pf = true →
  (S_IFDOOR pf ∉ standard_keys) ∧ (S_IFPORT pf ∉ standard_keys)
  ∧ (S_IFWHT pf ∉ standard_keys).

(** The keys [file_types] has once the module is loaded. *)
Definition table_keys (pf : platform) : list Z :=
  (standard_keys
   ++ (if version_ge_3_4 pf then [S_IFDOOR pf; S_IFPORT pf; S_IFWHT pf] else []))%list.

(** The number a numeral in [base] (at most 10) denotes, continuing from
    [acc]; [None] if a character is not a digit of the base. *)
Fixpoint numeral_value (base : Z) (s : string) (acc : Z) : option Z :=
  match s with
  | EmptyString => Some acc
  | String c rest =>
      let d := Z.of_N (N_of_ascii c) - 48 in
      if (0 <=? d) && (d <? base) then numeral_value base rest (base * acc + d)
      else None
  end.

(** [int(s, 8)] on a string of octal digits. *)
Definition int_of_octal (s : string) : option Z :=
  match s with
  | EmptyString => None
  | _ => numeral_value 8 s 0
  end.

(** The number a decimal numeral with an optional minus sign denotes. *)
Definition int_of_decimal (s : string) : option Z :=
  match s with
  | EmptyString => None
  | String c rest =>
      if Ascii.eqb c "-" then
        match rest with
        | EmptyString => None
        | _ => Z.opp <$> numeral_value 10 rest 0
        end
      else numeral_value 10 s 0
  end.

(** The value of a hexadecimal digit. *)
Definition hex_value (c : ascii) : option Z :=
  let n := Z.of_N (N_of_ascii c) in
  if (48 <=? n) && (n <=? 57) then Some (n - 48)
  else if (97 <=? n) && (n <=? 102) then Some (n - 87)
  else if (65 <=? n) && (n <=? 70) then Some (n - 55)
  else None.

(** The character a short escape stands for. *)
Definition unescape_char (c : ascii) : option ascii :=
  let n := Z.of_N (N_of_ascii c) in
  if n =? 34 then Some dquote
  else if n =? 92 then Some backslash
  else if n =? 47 then Some "/"%char
  else if n =? 110 then Some newline
  else if n =? 114 then Some "013"%char
  else if n =? 116 then Some "009"%char
  else if n =? 102 then Some "012"%char
  else if n =? 98 then Some "008"%char
  else None.

(** Reading a JSON string from just after its opening quote, as
    [py_scanstring] of [json.decoder] does in strict mode: the text of the
    string and what follows the closing quote.  [None] when the string does
    not end, has a raw control character or a wrong escape, or names a code
    point above 255. *)
Fixpoint scanstring (s : string) : option (string * string) :=
  match s with
  | EmptyString => None
  | String c rest =>
      if Ascii.eqb c dquote then Some (EmptyString, rest)
      else if Ascii.eqb c backslash then
        match rest with
        | EmptyString => None
        | String e rest' =>
            if Ascii.eqb e "u" then
              match rest' with
              | String h1 (String h2 (String h3 (String h4 rest''))) =>
                  match hex_value h1, hex_value h2, hex_value h3, hex_value h4 with
                  | Some d1, Some d2, Some d3, Some d4 =>
                      let code := 4096 * d1 + 256 * d2 + 16 * d3 + d4 in
                      if code <? 256 then
                        match scanstring rest'' with
                        | Some (text, after) =>
                            Some (String (ascii_of_N (Z.to_N code)) text, after)
                        | None => None
                        end
                      else None
                  | _, _, _, _ => None
                  end
              | _ => None
              end
            else
              match unescape_char e, scanstring rest' with
              | Some c', Some (text, after) => Some (String c' text, after)
              | _, _ => None
              end
        end
      else if Z.of_N (N_of_ascii c) <? 32 then None
      else
        match scanstring rest with
        | Some (text, after) => Some (String c text, after)
        | None => None
        end
  end.

(** Reading a JSON string from its opening quote. *)
Definition read_string (s : string) : option (string * string) :=
  match s with
  | EmptyString => None
  | String c rest => if Ascii.eqb c dquote then scanstring rest else None
  end.

(** Every character of [s] is a printable ASCII character (32 to 126). *)
Fixpoint all_printable (s : string) : bool :=
  match s with
  | EmptyString => true
  | String c rest =>
      (32 <=? Z.of_N (N_of_ascii c)) && (Z.of_N (N_of_ascii c) <=? 126)
      && all_printable rest
  end.

(** A mode that [stat.S_IFMT] accepts whatever the platform: from Python
    3.4 on the function is the C one, which raises [OverflowError] for a
    mode that is negative or does not fit [mode_t], and [mode_t] has at
    least 16 bits.  Every [st_mode] is such a mode. *)
Definition fits_mode_t (mode : Z) : Prop := 0 ≤ mode < 2 ^ 16.

(** The character in an execute position, as [strmode(3)] describes it:
    [lower] if the special bit and the execute bit are both set, [upper] if
    only the special bit is, [x] if only the execute bit is, [-] if neither. *)
Definition execute_char (upper lower : ascii) (special execute : bool) : ascii :=
  match special, execute with
  | true, true => lower
  | true, false => upper
  | false, true => "x"%char
  | false, false => "-"%char
  end.

(** The bit of the one-bit mask [mask] is set in [mode]. *)
Definition has_bit (mode mask : Z) : bool := Z.testbit mode (Z.log2 mask).

(** The ten characters [strmode] puts after the type symbol. *)
Definition permissions (mode : Z) : string :=
  String (if Z.testbit mode 8 then "r" else "-")%char
  (String (if Z.testbit mode 7 then "w" else "-")%char
  (String (execute_char "S" "s" (Z.testbit mode 11) (Z.testbit mode 6))
  (String (if Z.testbit mode 5 then "r" else "-")%char
  (String (if Z.testbit mode 4 then "w" else "-")%char
  (String (execute_char "S" "s" (Z.testbit mode 10) (Z.testbit mode 3))
  (String (if Z.testbit mode 2 then "r" else "-")%char
  (String (if Z.testbit mode 1 then "w" else "-")%char
  (String (execute_char "T" "t" (Z.testbit mode 9) (Z.testbit mode 0))
  (String " "%char ""))))))))).

(** The keys of every record of a path on which [os.stat] returned. *)
Definition core_keys : list string :=
  ["filename"; "success"; "followed_symlink"; "filetype"; "mode"; "mode_octal";
   "mode_str"; "inode"; "device"; "links"; "owner"; "group"; "size";
   "access_time"; "modify_time"; "change_time"].

(** ** The records, in closed form *)

Section Records.

Context {PyFloat : Type}.
Variable float_repr : PyFloat → string.
Variable sys : system PyFloat.
Variable pf : platform.

(** The keys of a dictionary, in order. *)
Definition keys (d : list (string * value PyFloat)) : list string := map fst d.

(** The dictionary of a path on which [os.stat] raised [e]. *)
Definition failure_record (filename : string) (e : exception)
    : list (string * value PyFloat) :=
  [("filename", VStr filename);
   ("success", VBool false);
   ("error", VDict [("class", VStr (class_name e)); ("message", VStr (message e))])].

(** The extra fields [st] has, under their output names. *)
Definition extras (st : stat_result PyFloat) : list (string * value PyFloat) :=
  omap (λ field : string * string, (λ v, (field.2, v)) <$> st_attr st field.1)
       extra_fields.

(** The dictionary of a path on which [os.stat] returned [st] in iteration
    [k], when the table gives [entry] for the type bits of [st]. *)
Definition success_record (k : nat) (filename : string) (st : stat_result PyFloat)
    (entry : string * string) : list (string * value PyFloat) :=
  ([("filename", VStr filename);
   ("success", VBool true);
   ("followed_symlink", VBool (os_path_islink sys k filename));
   ("filetype", VStr entry.2);
   ("mode", VInt (st_mode st));
   ("mode_octal", VStr (format_mode_octal (st_mode st)));
   ("mode_str", VStr (entry.1 ++ permissions (st_mode st)));
   ("inode", VInt (st_ino st));
   ("device", VInt (st_dev st));
   ("links", VInt (st_nlink st));
   ("owner", VDict [("uid", VInt (st_uid st));
                    ("name", name_value (pwd_getpwuid sys k (st_uid st)))]);
   ("group", VDict [("gid", VInt (st_gid st));
                    ("name", name_value (grp_getgrgid sys k (st_gid st)))]);
   ("size", VInt (st_size st));
   ("access_time", VFloat (st_atime st));
   ("modify_time", VFloat (st_mtime st));
   ("change_time", VFloat (st_ctime st))]
  ++ extras st)%list.

(** The dictionary of [filename] in iteration [k], from what the system
    answers in that iteration. *)
Definition record_of (k : nat) (filename : string) : list (string * value PyFloat) :=
  match os_stat sys k filename with
  | inl e => failure_record filename e
  | inr st => success_record k filename st
                (entry_of (file_types pf) (stat.S_IFMT (st_mode st)))
  end.

(** [os.stat] returned in iteration [k]. *)
Definition stat_succeeds (k : nat) (filename : string) : bool :=
  match os_stat sys k filename with
  | inl _ => false
  | inr _ => true
  end.

(** In iteration [k] the system [sys'] answers every call as [sys] does. *)
Definition same_answers (k : nat) (sys' : system PyFloat) : Prop :=
  (∀ filename, os_stat sys' k filename = os_stat sys k filename)
  ∧ (∀ filename, os_path_islink sys' k filename = os_path_islink sys k filename)
  ∧ (∀ uid, pwd_getpwuid sys' k uid = pwd_getpwuid sys k uid)
  ∧ (∀ gid, grp_getgrgid sys' k gid = grp_getgrgid sys k gid).

(** [os.stat] returns for each of [filenames], asked from iteration [k] on. *)
Fixpoint all_succeed (k : nat) (filenames : list string) : bool :=
  match filenames with
  | [] => true
  | filename :: rest => stat_succeeds k filename && all_succeed (S k) rest
  end.

(** The output names of the extra fields [st] has, in the order of
    [extra_fields]. *)
Definition extra_keys (st : stat_result PyFloat) : list string :=
  map snd (filter (λ field : string * string, is_Some (st_attr st field.1)) extra_fields).

(** One member of an object of the array: the key, a colon and a blank,
    the value. *)
Definition member_text (item_separator : string) (member : string * value PyFloat)
    : string :=
  encode_basestring_ascii member.1 ++ ": "
  ++ iterencode float_repr 4 item_separator ": " member.2 2.

(** One object of the array: its members start on lines of their own after
    eight blanks; [item_separator] ends every member but the last. *)
Definition object_text (item_separator : string) (about : list (string * value PyFloat))
    : string :=
  "{" ++ String newline (spaces 8)
      ++ String.concat (item_separator ++ String newline (spaces 8))
           (map (member_text item_separator) about)
      ++ String newline (spaces 4) ++ "}".

(** The array: its objects start on lines of their own after four blanks;
    [item_separator] ends every object but the last. *)
Definition array_text (item_separator : string)
    (stats : list (list (string * value PyFloat))) : string :=
  match stats with
  | [] => "[]"
  | _ => "[" ++ String newline (spaces 4)
             ++ String.concat (item_separator ++ String newline (spaces 4))
                  (map (object_text item_separator) stats)
             ++ String newline "" ++ "]"
  end.

End Records.

(** ** Runs *)

Section Runs.

Context {PyFloat : Type}.
Variable sys : system PyFloat.

(** The type bits the loop looks up when it visits [filenames] from
    iteration [k] on: those of the modes [os.stat] returned, in order. *)
Fixpoint looked_up (k : nat) (filenames : list string) : list Z :=
  match filenames with
  | [] => []
  | filename :: rest =>
      match os_stat sys k filename with
      | inl _ => looked_up (S k) rest
      | inr st => stat.S_IFMT (st_mode st) :: looked_up (S k) rest
      end
  end.

(** The system as it answers [n] iterations later. *)
Definition later (n : nat) : system PyFloat :=
  {| os_stat := λ k, os_stat sys (n + k);
     os_path_islink := λ k, os_path_islink sys (n + k);
     pwd_getpwuid := λ k, pwd_getpwuid sys (n + k);
     grp_getgrgid := λ k, grp_getgrgid sys (n + k) |}.

(** In iteration [k] the system [sys'] answers as [sys] does the calls the
    loop makes for [filename]: [os.stat] on [filename] and, if it returns,
    [os.path.islink] on [filename] and the lookups of the owner and of the
    group that [os.stat] reports. *)
Definition same_answers_for (k : nat) (filename : string) (sys' : system PyFloat)
    : Prop :=
  os_stat sys' k filename = os_stat sys k filename
  ∧ ∀ st, os_stat sys k filename = inr st →
      os_path_islink sys' k filename = os_path_islink sys k filename
      ∧ pwd_getpwuid sys' k (st_uid st) = pwd_getpwuid sys k (st_uid st)
      ∧ grp_getgrgid sys' k (st_gid st) = grp_getgrgid sys k (st_gid st).

End Runs.

(** ** The layout of the document, in the words of the specification *)

(** A line break and [blanks] blanks. *)
Definition line_break (blanks : nat) : string := String newline (spaces blanks).

Section Layout.

Context {PyFloat : Type}.
Variable float_repr : PyFloat → string.

(** An array or an object at nesting depth [depth]: nothing between the
    brackets when it is empty; otherwise every item starts on a line of its
    own after four blanks for each level of nesting, a comma directly ends
    every item but the last, and the closing bracket is on a line of its own
    under the opening one. *)
Definition block (opening closing : string) (depth : nat) (items : list string)
    : string :=
  match items with
  | [] => opening ++ closing
  | _ => opening
         ++ String.concat "," (map (λ item, line_break (4 * S depth) ++ item) items)
         ++ line_break (4 * depth) ++ closing
  end.

(** The text of a value at nesting depth [depth]: a member of an object is
    its quoted key, a colon, a blank and its value. *)
Fixpoint layout (depth : nat) (v : value PyFloat) : string :=
  match v with
  | VNone => "null"
  | VBool true => "true"
  | VBool false => "false"
  | VInt n => int_to_base 10 n
  | VFloat x => float_repr x
  | VStr s => encode_basestring_ascii s
  | VList items => block "[" "]" depth (map (layout (S depth)) items)
  | VDict members =>
      block "{" "}" depth
        (map (λ member : string * value PyFloat,
                encode_basestring_ascii member.1 ++ ": " ++ layout (S depth) member.2)
             members)
  end.

(** Induction on values, with the values inside a list or a dictionary. *)
Variable P : value PyFloat → Prop.
Hypothesis P_none : P VNone.
Hypothesis P_bool : ∀ b, P (VBool b).
Hypothesis P_int : ∀ n, P (VInt n).
Hypothesis P_float : ∀ x, P (VFloat x).
Hypothesis P_str : ∀ s, P (VStr s).
Hypothesis P_list : ∀ items, Forall P items → P (VList items).
Hypothesis P_dict :
  ∀ members, Forall (λ member : string * value PyFloat, P member.2) members →
             P (VDict members).

Fixpoint value_nested_ind (v : value PyFloat) : P v :=
  match v with
  | VNone => P_none
  | VBool b => P_bool b
  | VInt n => P_int n
  | VFloat x => P_float x
  | VStr s => P_str s
  | VList items =>
      P_list items
        ((fix all (l : list (value PyFloat)) : Forall P l :=
            match l with
            | [] => List.Forall_nil P
            | x :: rest => List.Forall_cons P x rest (value_nested_ind x) (all rest)
            end) items)
  | VDict members =>
      P_dict members
        ((fix all (l : list (string * value PyFloat))
            : Forall (λ member : string * value PyFloat, P member.2) l :=
            match l with
            | [] => List.Forall_nil _
            | member :: rest =>
                List.Forall_cons _ member rest (value_nested_ind member.2) (all rest)
            end) members)
  end.

End Layout.

(** ** A sample system *)

(** Python 3.4 or later on Linux: none of the three optional type codes. *)
Definition linux3 : platform :=
  {| version_ge_3_4 := true; S_IFDOOR := 0; S_IFPORT := 0; S_IFWHT := 0 |}.

(** Python 3.4 or later on Solaris: doors and event ports. *)
Definition solaris3 : platform :=
  {| version_ge_3_4 := true; S_IFDOOR := 0xD000; S_IFPORT := 0xE000; S_IFWHT := 0 |}.

(** Times in whole seconds. *)
Definition seconds_repr (x : Z) : string := int_to_base 10 x ++ ".0".

(** A regular file, mode 0o100644, of a user the database does not know. *)
Definition notes_txt : stat_result Z :=
  {| st_mode := 0x81A4; st_ino := 42; st_dev := 2049; st_nlink := 1;
     st_uid := 1234; st_gid := 100; st_size := 12;
     st_atime := 1500000003; st_mtime := 1500000002; st_ctime := 1500000001;
     st_attr := λ attr,
       if String.eqb attr "st_blocks" then Some (VInt 8)
       else if String.eqb attr "st_blksize" then Some (VInt 4096)
       else if String.eqb attr "st_rdev" then Some (VInt 0)
       else None |}.

(** A directory, mode 0o040755, of root. *)
Definition home_dir : stat_result Z :=
  {| st_mode := 0x41ED; st_ino := 2; st_dev := 2049; st_nlink := 3;
     st_uid := 0; st_gid := 0; st_size := 4096;
     st_atime := 1500000006; st_mtime := 1500000005; st_ctime := 1500000004;
     st_attr := λ attr, if String.eqb attr "st_blocks" then Some (VInt 8) else None |}.

Definition no_such_file : exception :=
  {| class_name := "FileNotFoundError";
     message := "[Errno 2] No such file or directory" |}.

Definition sample_sys : system Z :=
  {| os_stat := λ _ filename,
       if String.eqb filename "notes.txt" then inr notes_txt
       else if String.eqb filename "home" then inr home_dir
       else inl no_such_file;
     os_path_islink := λ _ _, false;
     pwd_getpwuid := λ _ uid, if uid =? 0 then Some "root" else None;
     grp_getgrgid := λ _ gid, if gid =? 0 then Some "root" else None |}.

(** A system that agrees with [sample_sys] on [os.stat] for [notes.txt],
    [home] and [missing] and on the ids 0, 100 and 1234, and differs
    elsewhere: other files exist, [missing] is a link, uid 7 has a name. *)
Definition other_sys : system Z :=
  {| os_stat := λ _ filename,
       if String.eqb filename "notes.txt" then inr notes_txt
       else if String.eqb filename "home" then inr home_dir
       else if String.eqb filename "missing" then inl no_such_file
       else inr home_dir;
     os_path_islink := λ _ filename, String.eqb filename "missing";
     pwd_getpwuid := λ _ uid,
       if uid =? 0 then Some "root" else if uid =? 7 then Some "lp" else None;
     grp_getgrgid := λ _ gid,
       if gid =? 0 then Some "root" else if gid =? 7 then Some "lp" else None |}.

(** An interpreter before Python 3.4 on Linux: the three assignments of
    lines 66 to 68 are not run. *)
Definition linux_before_3_4 : platform :=
  {| version_ge_3_4 := false; S_IFDOOR := 0; S_IFPORT := 0; S_IFWHT := 0 |}.

(** What [os.stat] returns on Linux for a descriptor of an anonymous inode
    (an event or epoll descriptor seen through [/proc]): mode 0o600, no type
    bits. *)
Definition anon_inode : stat_result Z :=
  {| st_mode := 0x180; st_ino := 1057; st_dev := 15; st_nlink := 1;
     st_uid := 0; st_gid := 0; st_size := 0;
     st_atime := 0; st_mtime := 0; st_ctime := 0;
     st_attr := λ attr, if String.eqb attr "st_blocks" then Some (VInt 0) else None |}.

(** A system in which every path is such a descriptor. *)
Definition proc_sys : system Z :=
  {| os_stat := λ _ _, inr anon_inode;
     os_path_islink := λ _ _, true;
     pwd_getpwuid := λ _ uid, if uid =? 0 then Some "root" else None;
     grp_getgrgid := λ _ gid, if gid =? 0 then Some "root" else None |}.

Definition sample_argv : list string := ["statjson"; "notes.txt"; "missing"; "home"].

(** ** Bits *)

Lemma truthy_land_pow2 (mode k : Z) :
  0 ≤ k → truthy (Z.land mode (2 ^ k)) = Z.testbit mode k.
Proof.
  intros Hk. unfold truthy.
  destruct (Z.testbit mode k) eqn:Hb.
  - apply negb_true_iff, Z.eqb_neq. intros H0.
    assert (Hc : Z.testbit (Z.land mode (2 ^ k)) k = false)
      by (rewrite H0; apply Z.bits_0).
    rewrite Z.land_spec, Hb, Z.pow2_bits_true in Hc by lia. discriminate.
  - apply negb_false_iff, Z.eqb_eq, Z.bits_inj'. intros i Hi.
    rewrite Z.land_spec, Z.bits_0.
    destruct (Z.eq_dec k i) as [->|Hne].
    + rewrite Hb. reflexivity.
    + rewrite Z.pow2_bits_false by lia. apply andb_false_r.
Qed.

Lemma truthy_mask (mode : Z) :
  truthy (Z.land mode stat.S_IRUSR) = Z.testbit mode 8
  ∧ truthy (Z.land mode stat.S_IWUSR) = Z.testbit mode 7
  ∧ truthy (Z.land mode stat.S_IXUSR) = Z.testbit mode 6
  ∧ truthy (Z.land mode stat.S_IRGRP) = Z.testbit mode 5
  ∧ truthy (Z.land mode stat.S_IWGRP) = Z.testbit mode 4
  ∧ truthy (Z.land mode stat.S_IXGRP) = Z.testbit mode 3
  ∧ truthy (Z.land mode stat.S_IROTH) = Z.testbit mode 2
  ∧ truthy (Z.land mode stat.S_IWOTH) = Z.testbit mode 1
  ∧ truthy (Z.land mode stat.S_IXOTH) = Z.testbit mode 0
  ∧ truthy (Z.land mode stat.S_ISUID) = Z.testbit mode 11
  ∧ truthy (Z.land mode stat.S_ISGID) = Z.testbit mode 10
  ∧ truthy (Z.land mode stat.S_ISVTX) = Z.testbit mode 9.
Proof.
  repeat split.
  - apply (truthy_land_pow2 mode 8); lia.
  - apply (truthy_land_pow2 mode 7); lia.
  - apply (truthy_land_pow2 mode 6); lia.
  - apply (truthy_land_pow2 mode 5); lia.
  - apply (truthy_land_pow2 mode 4); lia.
  - apply (truthy_land_pow2 mode 3); lia.
  - apply (truthy_land_pow2 mode 2); lia.
  - apply (truthy_land_pow2 mode 1); lia.
  - apply (truthy_land_pow2 mode 0); lia.
  - apply (truthy_land_pow2 mode 11); lia.
  - apply (truthy_land_pow2 mode 10); lia.
  - apply (truthy_land_pow2 mode 9); lia.
Qed.

(** ** The table *)

Lemma getitem_fst (key : Z) (tbl : gmap Z (string * string)) :
  (getitem key tbl).1 = entry_of tbl key.
Proof. unfold getitem, entry_of. destruct (tbl !! key); reflexivity. Qed.

Lemma getitem_snd (key : Z) (tbl : gmap Z (string * string)) :
  reads_like tbl (getitem key tbl).2.
Proof.
  unfold getitem, reads_like, entry_of. intros key'.
  destruct (tbl !! key) eqn:Hk; simpl; [reflexivity|].
  destruct (decide (key = key')) as [<-|Hne].
  - rewrite lookup_insert_eq, Hk. reflexivity.
  - rewrite lookup_insert_ne by done. reflexivity.
Qed.

Lemma getitem_again (key : Z) (tbl : gmap Z (string * string)) :
  getitem key (getitem key tbl).2 = (entry_of tbl key, (getitem key tbl).2).
Proof.
  unfold getitem, entry_of.
  destruct (tbl !! key) eqn:Hk; simpl.
  - rewrite Hk. reflexivity.
  - rewrite lookup_insert_eq. reflexivity.
Qed.

Lemma reads_like_refl (t : gmap Z (string * string)) : reads_like t t.
Proof. intros key. reflexivity. Qed.

Lemma reads_like_trans (t1 t2 t3 : gmap Z (string * string)) :
  reads_like t1 t2 → reads_like t2 t3 → reads_like t1 t3.
Proof. intros H12 H23 key. rewrite H23. apply H12. Qed.

Lemma after_lookups_reads_like (keys : list Z) (tbl : gmap Z (string * string)) :
  reads_like tbl (after_lookups keys tbl).
Proof.
  unfold after_lookups. revert tbl.
  induction keys as [|key keys IH]; intros tbl; simpl.
  - apply reads_like_refl.
  - eapply reads_like_trans; [apply getitem_snd | apply IH].
Qed.

Lemma if_char_app (b : bool) (c d : ascii) (s : string) :
  (if b then String c "" else String d "") ++ s = String (if b then c else d) s.
Proof. destruct b; reflexivity. Qed.

Lemma str_item_app (upper lower : ascii) (special execute : bool) (s : string) :
  str_item (if special then String upper (String lower "") else "-x") execute ++ s
  = String (execute_char upper lower special execute) s.
Proof. destruct special, execute; reflexivity. Qed.

Lemma strmode_eq (mode : Z) (tbl : gmap Z (string * string)) :
  strmode mode tbl
  = ((entry_of tbl (stat.S_IFMT mode)).1 ++ permissions mode,
     (getitem (stat.S_IFMT mode) tbl).2).
Proof.
  unfold strmode, mbind, Py_bind, mret, Py_ret.
  rewrite (surjective_pairing (getitem (stat.S_IFMT mode) tbl)), getitem_fst.
  destruct (truthy_mask mode)
    as (-> & -> & -> & -> & -> & -> & -> & -> & -> & -> & -> & ->).
  rewrite !str_item_app, !if_char_app. reflexivity.
Qed.

Lemma literal_known (key : Z) : entry_of file_types_literal key ∈ known_entries.
Proof.
  unfold entry_of, file_types_literal, known_entries. simpl.
  repeat (rewrite lookup_insert; case_decide; [set_solver|]).
  rewrite lookup_empty. set_solver.
Qed.

Lemma file_types_known (pf : platform) (key : Z) :
  entry_of (file_types pf) key ∈ known_entries.
Proof.
  unfold file_types. destruct (version_ge_3_4 pf); [|apply literal_known].
  unfold entry_of.
  repeat (rewrite lookup_insert; case_decide; [set_solver|]).
  apply literal_known.
Qed.

Lemma known_entries_shape (entry : string * string) :
  entry ∈ known_entries →
  (∃ c, entry.1 = String c "")
  ∧ (entry.2 = "regular_file" ↔ entry.1 = "-")
  ∧ (entry.2 = "directory" ↔ entry.1 = "d").
Proof.
  unfold known_entries. intros H.
  repeat (apply elem_of_cons in H as [->|H]; [simpl; split; [eauto|split; split; intros; congruence]|]).
  apply elem_of_nil in H. contradiction.
Qed.

(** ** The layout of [mode_str] *)

Lemma get_symbol_permissions (c : ascii) (mode : Z) (n : nat) :
  String.get (S n) (String c "" ++ permissions mode) = String.get n (permissions mode).
Proof. reflexivity. Qed.

(** C3: in every state of the table, the fourth character of [strmode(mode)]
    is [x] if the owner may execute and setuid is clear, [S] if setuid is set
    and the owner may not execute, [s] if both bits are set and [-] if neither
    is; the seventh character is the same for the group and setgid; the tenth
    is [t] if sticky and execute-by-others are both set, [T] if only sticky is,
    [x] if only execute-by-others is and [-] if neither is. *)
Theorem strmode_execute_positions (pf : platform) (keys : list Z) (mode : Z) :
  let mode_str := (strmode mode (after_lookups keys (file_types pf))).1 in
  String.get 3 mode_str
    = Some (execute_char "S" "s" (has_bit mode stat.S_ISUID) (has_bit mode stat.S_IXUSR))
  ∧ String.get 6 mode_str
    = Some (execute_char "S" "s" (has_bit mode stat.S_ISGID) (has_bit mode stat.S_IXGRP))
  ∧ String.get 9 mode_str
    = Some (execute_char "T" "t" (has_bit mode stat.S_ISVTX) (has_bit mode stat.S_IXOTH)).
Proof.
  intros mode_str. subst mode_str. rewrite strmode_eq. cbn [fst].
  rewrite (after_lookups_reads_like keys (file_types pf)).
  destruct (known_entries_shape _ (file_types_known pf (stat.S_IFMT mode)))
    as [[c ->] _].
  rewrite !get_symbol_permissions. repeat split.
Qed.

(** ** Numerals *)

Lemma digit_char_decimal (d : Z) :
  0 ≤ d < 10 → Z.of_N (N_of_ascii (digit_char d)) - 48 = d.
Proof.
  intros Hd.
  assert (d = 0 ∨ d = 1 ∨ d = 2 ∨ d = 3 ∨ d = 4 ∨ d = 5 ∨ d = 6 ∨ d = 7
          ∨ d = 8 ∨ d = 9) as Hc by lia.
  destruct Hc as [->|[->|[->|[->|[->|[->|[->|[->|[->| ->]]]]]]]]]; reflexivity.
Qed.

Lemma numeral_value_digit (base n : Z) (acc : string) :
  2 ≤ base ≤ 10 → 0 ≤ n →
  numeral_value base (String (digit_char (n mod base)) acc) (n / base)
  = numeral_value base acc n.
Proof.
  intros Hbase Hn. cbn [numeral_value].
  pose proof (Z.mod_pos_bound n base ltac:(lia)) as Hm.
  rewrite digit_char_decimal by lia.
  replace ((0 <=? n mod base) && (n mod base <? base)) with true
    by (symmetry; apply andb_true_iff; lia).
  pose proof (Z.div_mod n base ltac:(lia)). f_equal; lia.
Qed.

(** Reading back the digits [digits_aux] writes gives the number, when
    [fuel] allows for all of them. *)
Lemma numeral_value_digits_aux (base : Z) (fuel : nat) :
  2 ≤ base ≤ 10 →
  ∀ (n : Z) (acc : string),
    0 ≤ n < base ^ Z.of_nat (S fuel) →
    numeral_value base (digits_aux base fuel n acc) 0 = numeral_value base acc n.
Proof.
  intros Hbase.
  assert (Hlast : ∀ n acc, 0 ≤ n < base →
            numeral_value base (String (digit_char (n mod base)) acc) 0
            = numeral_value base acc n).
  { intros n acc Hn. rewrite <- (numeral_value_digit base n acc) by lia.
    rewrite Z.div_small by lia. reflexivity. }
  induction fuel as [|fuel IH]; intros n acc Hn.
  - apply Hlast. rewrite Z.pow_1_r in Hn. exact Hn.
  - cbn [digits_aux]. destruct (Z.ltb_spec n base) as [Hlt|Hge].
    + apply Hlast. lia.
    + rewrite IH; [apply numeral_value_digit; lia|].
      split; [apply Z.div_pos; lia|].
      apply Z.div_lt_upper_bound; [lia|].
      rewrite Nat2Z.inj_succ, Z.pow_succ_r in Hn by lia. lia.
Qed.

Lemma numeral_value_digits (base n : Z) :
  2 ≤ base ≤ 10 → 0 ≤ n → numeral_value base (digits base n) 0 = Some n.
Proof.
  intros Hbase Hn. unfold digits.
  rewrite numeral_value_digits_aux; [reflexivity|exact Hbase|].
  split; [lia|].
  destruct (Z.eq_dec n 0) as [->|Hnz]; [apply Z.pow_pos_nonneg; lia|].
  rewrite Nat2Z.inj_succ, Z2Nat.id by apply Z.log2_nonneg.
  pose proof (Z.log2_spec n ltac:(lia)) as [_ Hup].
  eapply Z.lt_le_trans; [exact Hup|].
  apply Z.pow_le_mono_l. lia.
Qed.

(** The decimal numeral [json] writes for an integer denotes it. *)
Lemma int_repr_decimal (n : Z) :
  0 ≤ n → numeral_value 10 (int_to_base 10 n) 0 = Some n.
Proof.
  intros Hn. unfold int_to_base.
  destruct (Z.ltb_spec n 0) as [Hneg|_]; [lia|].
  apply numeral_value_digits; lia.
Qed.

Lemma int_of_octal_format (n : Z) :
  0 ≤ n →
  format_mode_octal n = "0" ++ digits 8 n ∧ int_of_octal (format_mode_octal n) = Some n.
Proof.
  intros Hn. unfold format_mode_octal, int_to_base.
  destruct (Z.ltb_spec n 0) as [Hneg|_]; [lia|]. split; [reflexivity|].
  change (int_of_octal ("0" ++ digits 8 n)) with (numeral_value 8 (digits 8 n) 0).
  apply numeral_value_digits; lia.
Qed.

(** ** The keys of the table *)

Lemma file_types_standard (pf : platform) (key : Z) :
  platform_ok pf → key ∈ standard_keys →
  file_types pf !! key = file_types_literal !! key.
Proof.
  intros Hok Hkey. unfold file_types, platform_ok in *.
  destruct (version_ge_3_4 pf) eqn:Hv; [|reflexivity].
  destruct (Hok eq_refl) as (Hd & Hp & Hw).
  rewrite !lookup_insert_ne; [reflexivity|intros Heq; subst key; contradiction ..].
Qed.

Lemma dom_file_types (pf : platform) :
  dom (file_types pf) = list_to_set (table_keys pf).
Proof.
  unfold file_types, table_keys, file_types_literal.
  destruct (version_ge_3_4 pf).
  - rewrite !dom_insert_L, dom_list_to_map_L, list_to_set_app_L. simpl. set_solver.
  - rewrite dom_list_to_map_L, list_to_set_app_L. simpl. set_solver.
Qed.

Lemma permissions_S_IMODE (mode : Z) :
  permissions mode = permissions (stat.S_IMODE mode).
Proof.
  assert (Hbit : ∀ k, 0 ≤ k < 12 → Z.testbit (stat.S_IMODE mode) k = Z.testbit mode k).
  { intros k Hk. unfold stat.S_IMODE. rewrite Z.land_spec.
    assert (k = 0 ∨ k = 1 ∨ k = 2 ∨ k = 3 ∨ k = 4 ∨ k = 5 ∨ k = 6 ∨ k = 7
            ∨ k = 8 ∨ k = 9 ∨ k = 10 ∨ k = 11) as Hc by lia.
    destruct Hc as [->|[->|[->|[->|[->|[->|[->|[->|[->|[->|[->| ->]]]]]]]]]]];
      apply andb_true_r. }
  unfold permissions. rewrite !Hbit by lia. reflexivity.
Qed.

(** ** Ordered dictionaries *)

Section RecordFacts.

Context {PyFloat : Type}.
Variable float_repr : PyFloat → string.
Variable sys : system PyFloat.
Variable pf : platform.

Lemma odict_get_app (d d' : list (string * value PyFloat)) (key : string) :
  odict_get (d ++ d')%list key
  = match odict_get d key with Some v => Some v | None => odict_get d' key end.
Proof.
  induction d as [|[k v] d IH]; simpl; [reflexivity|].
  destruct (String.eqb k key); [reflexivity|apply IH].
Qed.

Lemma odict_set_fresh (d : list (string * value PyFloat)) (key : string)
    (v : value PyFloat) :
  odict_get d key = None → odict_set d key v = (d ++ [(key, v)])%list.
Proof.
  induction d as [|[k v'] d IH]; simpl; [reflexivity|].
  destruct (String.eqb k key); [discriminate|].
  intros H. rewrite IH by exact H. reflexivity.
Qed.

Lemma fold_add_extra (st : stat_result PyFloat) (fields : list (string * string)) :
  ∀ about : list (string * value PyFloat),
    NoDup (map snd fields) →
    Forall (λ field : string * string, odict_get about field.2 = None) fields →
    fold_left (add_extra st) fields about
    = (about ++ omap (λ field : string * string,
                        (λ v, (field.2, v)) <$> st_attr st field.1) fields)%list.
Proof.
  induction fields as [|[attr name] fields IH]; intros about Hnd Hfresh; simpl.
  - rewrite app_nil_r. reflexivity.
  - apply NoDup_cons in Hnd as [Hname Hnd].
    apply Forall_cons in Hfresh as [Hfirst Hfresh].
    unfold add_extra at 2. simpl in *.
    destruct (st_attr st attr) as [v|]; simpl.
    + rewrite (odict_set_fresh _ _ _ Hfirst), IH, <- app_assoc; [reflexivity|exact Hnd|].
      apply Forall_forall. intros [attr' name'] Hin. simpl.
      pose proof (proj1 (Forall_forall _ _) Hfresh _ Hin) as Hget. simpl in Hget.
      rewrite odict_get_app, Hget. simpl.
      destruct (String.eqb_spec name name') as [->|]; [|reflexivity].
      exfalso. apply Hname. apply list_elem_of_fmap. exists (attr', name'). done.
    + apply IH; assumption.
Qed.

(** ** One iteration, the loop and [main] *)

Lemma all_succeed_spec (filenames : list string) :
  ∀ k, all_succeed sys k filenames = true
       ↔ ∀ i filename, filenames !! i = Some filename →
                       stat_succeeds sys (k + i) filename = true.
Proof.
  induction filenames as [|f rest IH]; intros k; simpl.
  - split; [intros _ i filename H; discriminate | reflexivity].
  - rewrite andb_true_iff, IH. split.
    + intros [Hf Hrest] [|i] filename Hi; simpl in Hi.
      * injection Hi as <-. rewrite Nat.add_0_r. exact Hf.
      * rewrite Nat.add_succ_r. apply (Hrest i filename Hi).
    + intros H. split.
      * rewrite <- (Nat.add_0_r k). apply (H 0%nat). reflexivity.
      * intros i filename Hi. replace (S k + i)%nat with (k + S i)%nat by lia.
        apply (H (S i)). exact Hi.
Qed.

Lemma describe_eq (k : nat) (filename : string) (st : stat_result PyFloat)
    (tbl : gmap Z (string * string)) :
  describe sys k filename st [("filename", VStr filename)] tbl
  = (success_record sys k filename st (entry_of tbl (stat.S_IFMT (st_mode st))),
     (getitem (stat.S_IFMT (st_mode st)) tbl).2).
Proof.
  unfold describe, mbind, Py_bind, mret, Py_ret.
  pose proof (getitem_fst (stat.S_IFMT (st_mode st)) tbl) as Hfst.
  pose proof (getitem_again (stat.S_IFMT (st_mode st)) tbl) as Hagain.
  pose proof (getitem_snd (stat.S_IFMT (st_mode st)) tbl (stat.S_IFMT (st_mode st)))
    as Hread.
  destruct (getitem (stat.S_IFMT (st_mode st)) tbl) as [entry tbl1].
  simpl in Hfst, Hagain, Hread. subst entry.
  rewrite strmode_eq, Hread, Hagain. cbn [fst snd].
  f_equal.
  cbn [odict_set odict_set_in odict_get String.eqb Ascii.eqb Bool.eqb].
  rewrite fold_add_extra.
  - reflexivity.
  - unfold extra_fields. cbn [map snd].
    apply (bool_decide_unpack _). vm_compute. reflexivity.
  - unfold extra_fields. repeat (apply Forall_cons_2; [reflexivity|]). apply Forall_nil_2.
Qed.

Lemma visit_eq (k : nat) (filename : string) (ok : bool)
    (tbl : gmap Z (string * string)) :
  reads_like (file_types pf) tbl →
  (visit sys k filename ok tbl).1 = (record_of sys pf k filename, ok && stat_succeeds sys k filename)
  ∧ reads_like (file_types pf) (visit sys k filename ok tbl).2.
Proof.
  intros Hread. unfold visit, record_of, stat_succeeds.
  cbn [odict_set]. unfold mbind, Py_bind, mret, Py_ret.
  destruct (os_stat sys k filename) as [e|st].
  - simpl. rewrite andb_false_r. split; [reflexivity|exact Hread].
  - rewrite describe_eq. simpl. rewrite andb_true_r, Hread. split; [reflexivity|].
    eapply reads_like_trans; [exact Hread|apply getitem_snd].
Qed.

Lemma loop_eq (filenames : list string) :
  ∀ (k : nat) (stats : list (list (string * value PyFloat))) (ok : bool)
    (tbl : gmap Z (string * string)),
    reads_like (file_types pf) tbl →
    (loop sys k filenames stats ok tbl).1
    = ((stats ++ imap (λ i, record_of sys pf (k + i)) filenames)%list,
       ok && all_succeed sys k filenames)
    ∧ reads_like (file_types pf) (loop sys k filenames stats ok tbl).2.
Proof.
  induction filenames as [|f rest IH]; intros k stats ok tbl Hread.
  - simpl. rewrite app_nil_r, andb_true_r. split; [reflexivity|exact Hread].
  - cbn [loop]. unfold mbind, Py_bind.
    destruct (visit_eq k f ok tbl Hread) as [Hv Hread'].
    destruct (visit sys k f ok tbl) as [[about ok'] tbl']. simpl in Hv, Hread'.
    injection Hv as -> ->.
    destruct (IH (S k) (stats ++ [record_of sys pf k f])%list (ok && stat_succeeds sys k f)
                tbl' Hread') as [-> Hfinal].
    split; [|exact Hfinal].
    cbn [imap app all_succeed].
    rewrite <- app_assoc, andb_assoc, Nat.add_0_r. cbn [app]. do 3 f_equal.
    apply imap_ext. intros i x _. simpl. rewrite Nat.add_succ_r. reflexivity.
Qed.

Lemma main_eq (argv : list string) :
  (main float_repr sys argv (file_types pf)).1
  = {| stats_of := imap (record_of sys pf) (drop 1 argv);
       stdout := print (dumps float_repr 4 "," ": "
                          (VList (map VDict (imap (record_of sys pf) (drop 1 argv)))));
       exit_status := if all_succeed sys 0 (drop 1 argv) then 0 else 1 |}.
Proof.
  unfold main, mbind, Py_bind, mret, Py_ret.
  destruct (loop_eq (drop 1 argv) 0 [] true (file_types pf) (reads_like_refl _))
    as [Hl _].
  destruct (loop sys 0 (drop 1 argv) [] true (file_types pf)) as [[stats ok] tbl].
  simpl in Hl. injection Hl as -> ->. simpl.
  destruct (all_succeed sys 0 (drop 1 argv)); reflexivity.
Qed.

Lemma stats_lookup (argv : list string) (i : nat) (p : string) :
  drop 1 argv !! i = Some p →
  stats_of (main float_repr sys argv (file_types pf)).1 !! i = Some (record_of sys pf i p).
Proof.
  intros Hp. rewrite main_eq. cbn [stats_of].
  rewrite list_lookup_imap, Hp. reflexivity.
Qed.

Lemma record_of_filename (k : nat) (p : string) :
  odict_get (record_of sys pf k p) "filename" = Some (VStr p).
Proof. unfold record_of. destruct (os_stat sys k p); reflexivity. Qed.

(** ** The sequence of records *)

(** C1: for every argument list the program builds one record per path
    argument, in the order of the arguments.  The list of records is as long
    as the list of paths; it is the list of the records of the paths, each
    from what the system answers in its iteration; and record [i] is a
    Metadata Record of path [i]: its [filename] is the path as it was given,
    its [success] tells whether [os.stat] returned, and it is the error
    record of the path when [os.stat] raised and the record of the result
    when it returned. *)
Theorem main_one_record_per_path (argv : list string) :
  let out := (main float_repr sys argv (file_types pf)).1 in
  let paths := drop 1 argv in
  length (stats_of out) = length paths
  ∧ stats_of out = imap (record_of sys pf) paths
  ∧ map (λ about, odict_get about "filename") (stats_of out)
    = map (λ p, Some (VStr p)) paths
  ∧ ∀ i p, paths !! i = Some p →
      ∃ about, stats_of out !! i = Some about
        ∧ odict_get about "filename" = Some (VStr p)
        ∧ odict_get about "success"
          = Some (VBool (match os_stat sys i p with inl _ => false | inr _ => true end))
        ∧ match os_stat sys i p with
          | inl e =>
              about = [("filename", VStr p);
                       ("success", VBool false);
                       ("error", VDict [("class", VStr (class_name e));
                                        ("message", VStr (message e))])]
          | inr st =>
              about = success_record sys i p st
                        (entry_of (file_types pf) (stat.S_IFMT (st_mode st)))
          end.
Proof.
  intros out paths. subst out paths. rewrite main_eq. cbn [stats_of stdout].
  split; [apply length_imap|]. split; [reflexivity|]. split.
  - apply list_eq. intros i.
    rewrite !list_lookup_fmap, list_lookup_imap.
    destruct (drop 1 argv !! i) as [p|]; [|reflexivity].
    simpl. rewrite record_of_filename. reflexivity.
  - intros i p Hp. exists (record_of sys pf i p).
    rewrite list_lookup_imap, Hp.
    split; [reflexivity|]. split; [apply record_of_filename|].
    unfold record_of. destruct (os_stat sys i p) as [e|st]; split; reflexivity.
Qed.

(** C8: with no path argument the document handed to [print] is [[]], two
    characters long (standard output gets it and the line break [print]
    adds), and the exit status is 0. *)
Theorem main_no_paths (prog : string) :
  let out := (main float_repr sys [prog] (file_types pf)).1 in
  stdout out = print "[]" ∧ String.length "[]" = 2%nat ∧ exit_status out = 0.
Proof. intros out. subst out. rewrite main_eq. repeat split. Qed.

(** ** Failures and the exit status *)

Lemma stat_succeeds_inr (k : nat) (p : string) :
  stat_succeeds sys k p = true ↔ ∃ st, os_stat sys k p = inr st.
Proof.
  unfold stat_succeeds. destruct (os_stat sys k p) as [e|st].
  - split; [discriminate|intros [st H]; discriminate].
  - split; [eauto|reflexivity].
Qed.

Lemma all_succeed_false (filenames : list string) :
  ∀ k, all_succeed sys k filenames = false
       ↔ ∃ i p e, filenames !! i = Some p ∧ os_stat sys (k + i) p = inl e.
Proof.
  induction filenames as [|f rest IH]; intros k; simpl.
  - split; [discriminate|intros (i & p & e & H & _); discriminate].
  - rewrite andb_false_iff, IH. split.
    + intros [Hf|(i & p & e & Hi & He)].
      * unfold stat_succeeds in Hf. destruct (os_stat sys k f) as [e|st] eqn:Hs;
          [|discriminate].
        exists 0%nat, f, e. rewrite Nat.add_0_r. split; [reflexivity|exact Hs].
      * exists (S i), p, e. rewrite Nat.add_succ_r. split; [exact Hi|exact He].
    + intros ([|i] & p & e & Hi & He); simpl in Hi.
      * injection Hi as <-. rewrite Nat.add_0_r in He. left.
        unfold stat_succeeds. rewrite He. reflexivity.
      * right. exists i, p, e. rewrite Nat.add_succ_r in He. split; [exact Hi|exact He].
Qed.

End RecordFacts.

Section Failures.

Context {PyFloat : Type}.
Variable float_repr : PyFloat → string.
Variable sys : system PyFloat.
Variable pf : platform.

Lemma record_of_same_answers (sys' : system PyFloat) (k : nat) (p : string) :
  same_answers sys k sys' → record_of sys' pf k p = record_of sys pf k p.
Proof.
  intros (Hstat & Hlink & Hpwd & Hgrp). unfold record_of, success_record.
  rewrite Hstat, Hlink. destruct (os_stat sys k p) as [e|st]; [reflexivity|].
  rewrite Hpwd, Hgrp. reflexivity.
Qed.

(** C2: the exit status is 0 or 1; it is 0 exactly when [os.stat] returned
    for every path and 1 exactly when it raised for at least one.  The record
    of a path on which [os.stat] raised holds the filename, [success: false]
    and an [error] object whose [class] and [message] are strings (never
    null).  The record at a position is the same in every run that has the
    same path there and gets the same answers from the system in that
    iteration: what happens to the other paths does not change it. *)
Theorem main_exit_status (argv : list string) :
  let out := (main float_repr sys argv (file_types pf)).1 in
  let paths := drop 1 argv in
  (exit_status out = 0 ∨ exit_status out = 1)
  ∧ (exit_status out = 0
     ↔ ∀ i p, paths !! i = Some p → ∃ st, os_stat sys i p = inr st)
  ∧ (exit_status out = 1
     ↔ ∃ i p e, paths !! i = Some p ∧ os_stat sys i p = inl e)
  ∧ (∀ i p e, paths !! i = Some p → os_stat sys i p = inl e →
       stats_of out !! i
       = Some [("filename", VStr p);
               ("success", VBool false);
               ("error", VDict [("class", VStr (class_name e));
                                ("message", VStr (message e))])])
  ∧ (∀ (sys' : system PyFloat) (argv' : list string) (j : nat),
       drop 1 argv' !! j = paths !! j → same_answers sys j sys' →
       stats_of (main float_repr sys' argv' (file_types pf)).1 !! j
       = stats_of out !! j).
Proof.
  intros out paths. subst out paths.
  repeat split.
  - rewrite main_eq. cbn [exit_status].
    destruct (all_succeed sys 0 (drop 1 argv)); [left|right]; reflexivity.
  - rewrite main_eq. cbn [exit_status]. intros H0 i p Hp.
    destruct (all_succeed sys 0 (drop 1 argv)) eqn:Hall; [|discriminate].
    apply stat_succeeds_inr.
    apply (proj1 (all_succeed_spec sys (drop 1 argv) 0) Hall i p Hp).
  - rewrite main_eq. cbn [exit_status]. intros H.
    assert (Hall : all_succeed sys 0 (drop 1 argv) = true).
    { apply all_succeed_spec. intros i p Hp. apply stat_succeeds_inr, (H i p Hp). }
    rewrite Hall. reflexivity.
  - rewrite main_eq. cbn [exit_status]. intros H1.
    destruct (all_succeed sys 0 (drop 1 argv)) eqn:Hall; [discriminate|].
    apply (proj1 (all_succeed_false sys (drop 1 argv) 0) Hall).
  - rewrite main_eq. cbn [exit_status]. intros H.
    rewrite (proj2 (all_succeed_false sys (drop 1 argv) 0) H). reflexivity.
  - intros i p e Hp He. rewrite (stats_lookup _ _ _ _ _ _ Hp).
    unfold record_of. rewrite He. reflexivity.
  - intros sys' argv' j Hj Hsame.
    rewrite !main_eq. cbn [stats_of]. rewrite !list_lookup_imap, Hj.
    destruct (drop 1 argv !! j) as [p|]; [|reflexivity].
    simpl. rewrite (record_of_same_answers sys' j p Hsame). reflexivity.
Qed.

End Failures.

Section Successes.

Context {PyFloat : Type}.
Variable float_repr : PyFloat → string.
Variable sys : system PyFloat.
Variable pf : platform.

Lemma stats_lookup_success (argv : list string) (i : nat) (p : string)
    (st : stat_result PyFloat) :
  drop 1 argv !! i = Some p → os_stat sys i p = inr st →
  stats_of (main float_repr sys argv (file_types pf)).1 !! i
  = Some (success_record sys i p st
            (entry_of (file_types pf) (stat.S_IFMT (st_mode st)))).
Proof.
  intros Hp Hst. rewrite (stats_lookup _ _ _ _ _ _ Hp).
  unfold record_of. rewrite Hst. reflexivity.
Qed.

(** C4: the [mode_str] of a regular file on which [os.stat] returned has 11
    characters, the first is [-] and the last is a blank; it is
    [-rw-r--r-- ] when the permission bits are 0644.  The [mode_str] of a
    directory whose permission bits are 0755, with setgid and sticky clear,
    is [drwxr-xr-x ]. *)
Theorem mode_str_regular_file (argv : list string) (i : nat) (p : string)
    (st : stat_result PyFloat) :
  platform_ok pf →
  drop 1 argv !! i = Some p →
  os_stat sys i p = inr st →
  ∃ about mode_str,
    stats_of (main float_repr sys argv (file_types pf)).1 !! i = Some about
    ∧ odict_get about "mode_str" = Some (VStr mode_str)
    ∧ (stat.S_IFMT (st_mode st) = stat.S_IFREG →
       String.length mode_str = 11%nat
       ∧ String.get 0 mode_str = Some "-"%char
       ∧ String.get 10 mode_str = Some " "%char
       ∧ (stat.S_IMODE (st_mode st) = 0x1A4 (* 0o644 *) →
          mode_str = "-rw-r--r-- "))
    ∧ (stat.S_IFMT (st_mode st) = stat.S_IFDIR →
       stat.S_IMODE (st_mode st) = 0x1ED (* 0o755 *) →
       has_bit (st_mode st) stat.S_ISGID = false →
       has_bit (st_mode st) stat.S_ISVTX = false →
       mode_str = "drwxr-xr-x ").
Proof.
  intros Hok Hp Hst. eexists _, _.
  split; [apply (stats_lookup_success argv i p st Hp Hst)|].
  split; [reflexivity|]. unfold entry_of. split.
  - intros Hreg. rewrite Hreg, (file_types_standard pf _ Hok) by set_solver.
    repeat split. intros Hperm. rewrite permissions_S_IMODE, Hperm. reflexivity.
  - intros Hdir Hperm _ _.
    rewrite Hdir, (file_types_standard pf _ Hok) by set_solver.
    rewrite permissions_S_IMODE, Hperm. reflexivity.
Qed.

(** The type is looked up in one table, in whatever state earlier
    lookups left it.  The table maps the seven standard type codes to the
    symbols and names listed (block device to [b] and [block_device], and so
    on); its keys are these seven and, when the interpreter is Python 3.4 or
    later, the values the platform gives to [S_IFDOOR], [S_IFPORT] and
    [S_IFWHT]; for a mode whose type bits are not a key of the table, the
    symbol is [?] and the name is [unknown]. *)
Theorem file_types_lookup (keys : list Z) (mode : Z) :
  platform_ok pf →
  let tbl := after_lookups keys (file_types pf) in
  (getitem stat.S_IFBLK tbl).1 = ("b", "block_device")
  ∧ (getitem stat.S_IFCHR tbl).1 = ("c", "char_device")
  ∧ (getitem stat.S_IFDIR tbl).1 = ("d", "directory")
  ∧ (getitem stat.S_IFIFO tbl).1 = ("p", "FIFO")
  ∧ (getitem stat.S_IFLNK tbl).1 = ("l", "symlink")
  ∧ (getitem stat.S_IFREG tbl).1 = ("-", "regular_file")
  ∧ (getitem stat.S_IFSOCK tbl).1 = ("s", "socket")
  ∧ dom (file_types pf) = list_to_set (table_keys pf)
  ∧ (stat.S_IFMT mode ∉ dom (file_types pf) →
     (getitem (stat.S_IFMT mode) tbl).1 = ("?", "unknown")).
Proof.
  intros Hok tbl. subst tbl.
  rewrite !getitem_fst, !(after_lookups_reads_like keys (file_types pf)).
  unfold entry_of.
  rewrite !(file_types_standard pf _ Hok) by set_solver.
  repeat split.
  - apply dom_file_types.
  - intros Hnot. apply not_elem_of_dom in Hnot. rewrite Hnot. reflexivity.
Qed.

(** C7: a path on which [os.stat] returned has [success: true]; when the
    user database has no entry for its owner, [owner] holds the uid and a
    null name, and likewise [group] holds the gid and a null name when the
    group database has no entry for its group. *)
Theorem unknown_owner_name (argv : list string) (i : nat) (p : string)
    (st : stat_result PyFloat) :
  drop 1 argv !! i = Some p →
  os_stat sys i p = inr st →
  ∃ about,
    stats_of (main float_repr sys argv (file_types pf)).1 !! i = Some about
    ∧ odict_get about "success" = Some (VBool true)
    ∧ (pwd_getpwuid sys i (st_uid st) = None →
       odict_get about "owner"
       = Some (VDict [("uid", VInt (st_uid st)); ("name", VNone)]))
    ∧ (grp_getgrgid sys i (st_gid st) = None →
       odict_get about "group"
       = Some (VDict [("gid", VInt (st_gid st)); ("name", VNone)])).
Proof.
  intros Hp Hst. eexists.
  split; [apply (stats_lookup_success argv i p st Hp Hst)|].
  split; [reflexivity|]. split.
  - intros Hnone. cbn. rewrite Hnone. reflexivity.
  - intros Hnone. cbn. rewrite Hnone. reflexivity.
Qed.

(** C9: in the record of a path on which [os.stat] returned, [mode_octal]
    is the character [0] followed by the octal digits of [mode], and read as
    an octal numeral it denotes the number in [mode]. *)
Theorem mode_octal_round_trip (argv : list string) (i : nat) (p : string)
    (st : stat_result PyFloat) :
  drop 1 argv !! i = Some p →
  os_stat sys i p = inr st →
  0 ≤ st_mode st →
  ∃ about mode_octal,
    stats_of (main float_repr sys argv (file_types pf)).1 !! i = Some about
    ∧ odict_get about "mode" = Some (VInt (st_mode st))
    ∧ odict_get about "mode_octal" = Some (VStr mode_octal)
    ∧ mode_octal = "0" ++ digits 8 (st_mode st)
    ∧ int_of_octal mode_octal = Some (st_mode st).
Proof.
  intros Hp Hst Hmode. eexists _, _.
  split; [apply (stats_lookup_success argv i p st Hp Hst)|].
  split; [reflexivity|]. split; [reflexivity|].
  apply int_of_octal_format, Hmode.
Qed.

(** C10: in the record of a path on which [os.stat] returned, the name in
    [filetype] and the first character of [mode_str] are the two halves of
    one entry of the table, the one for the type bits of the mode; so
    [filetype] is [regular_file] exactly when [mode_str] begins with [-],
    and [directory] exactly when it begins with [d]. *)
Theorem filetype_matches_symbol (argv : list string) (i : nat) (p : string)
    (st : stat_result PyFloat) :
  drop 1 argv !! i = Some p →
  os_stat sys i p = inr st →
  ∃ about symbol name rest,
    stats_of (main float_repr sys argv (file_types pf)).1 !! i = Some about
    ∧ entry_of (file_types pf) (stat.S_IFMT (st_mode st)) = (String symbol "", name)
    ∧ odict_get about "filetype" = Some (VStr name)
    ∧ odict_get about "mode_str" = Some (VStr (String symbol rest))
    ∧ (name = "regular_file" ↔ symbol = "-"%char)
    ∧ (name = "directory" ↔ symbol = "d"%char).
Proof.
  intros Hp Hst.
  destruct (known_entries_shape _ (file_types_known pf (stat.S_IFMT (st_mode st))))
    as ([c Hc] & Hreg & Hdir).
  destruct (entry_of (file_types pf) (stat.S_IFMT (st_mode st))) as [sym name] eqn:He.
  simpl in Hc, Hreg, Hdir. subst sym.
  exists (success_record sys i p st (String c "", name)), c, name,
    (permissions (st_mode st)).
  split; [rewrite (stats_lookup_success argv i p st Hp Hst), He; reflexivity|].
  split; [reflexivity|]. split; [reflexivity|]. split; [reflexivity|].
  split.
  - rewrite Hreg. split; [intros H; injection H as ->; reflexivity|intros ->; reflexivity].
  - rewrite Hdir. split; [intros H; injection H as ->; reflexivity|intros ->; reflexivity].
Qed.

End Successes.

(** ** Joining strings *)

Lemma append_assoc (s1 s2 s3 : string) : (s1 ++ s2) ++ s3 = s1 ++ (s2 ++ s3).
Proof.
  induction s1 as [|c s1 IH]; [reflexivity|].
  change (String c ((s1 ++ s2) ++ s3) = String c (s1 ++ s2 ++ s3)).
  f_equal. exact IH.
Qed.

(** Joining items with a separator followed by a line break, after an
    opening line break, is joining with the separator the items that each
    start with the line break. *)
Lemma concat_line_breaks (br sep : string) (items : list string) :
  items ≠ [] →
  br ++ String.concat (sep ++ br) items
  = String.concat sep (map (λ item, br ++ item) items).
Proof.
  induction items as [|x [|y rest] IH]; intros Hne; [contradiction|reflexivity|].
  specialize (IH ltac:(discriminate)).
  change (br ++ (x ++ (sep ++ br) ++ String.concat (sep ++ br) (y :: rest))
          = (br ++ x) ++ sep ++ String.concat sep (map (λ item, br ++ item) (y :: rest))).
  rewrite <- IH, !append_assoc. reflexivity.
Qed.

(** ** The document *)

Section Document.

Context {PyFloat : Type}.
Variable float_repr : PyFloat → string.
Variable sys : system PyFloat.
Variable pf : platform.

Lemma keys_extras (st : stat_result PyFloat) : keys (extras st) = extra_keys st.
Proof.
  unfold keys, extras, extra_keys.
  induction extra_fields as [|[attr name] fields IH]; [reflexivity|].
  cbn [omap list_omap]. rewrite filter_cons. cbn [fst snd].
  destruct (st_attr st attr) as [v|].
  - rewrite decide_True by eauto. simpl. f_equal. exact IH.
  - rewrite decide_False by (intros [v Hv]; discriminate). simpl. exact IH.
Qed.

Lemma iterencode_objects (item_separator : string)
    (stats : list (list (string * value PyFloat))) :
  Forall (λ about, about ≠ []) stats →
  map (λ item, iterencode float_repr 4 item_separator ": " item 1) (map VDict stats)
  = map (object_text float_repr item_separator) stats.
Proof.
  intros Hne. rewrite map_map. apply map_ext_Forall.
  eapply Forall_impl; [exact Hne|].
  intros [|member d] Hd; [contradiction|reflexivity].
Qed.

Lemma dumps_array (item_separator : string)
    (stats : list (list (string * value PyFloat))) :
  Forall (λ about, about ≠ []) stats →
  dumps float_repr 4 item_separator ": " (VList (map VDict stats))
  = array_text float_repr item_separator stats.
Proof.
  intros Hne. destruct stats as [|about stats]; [reflexivity|].
  unfold array_text. rewrite <- (iterencode_objects _ _ Hne). reflexivity.
Qed.

Lemma block_join (opening closing : string) (depth : nat) (items : list string) :
  items ≠ [] →
  opening ++ newline_indent 4 (S depth)
  ++ String.concat ("," ++ newline_indent 4 (S depth)) items
  ++ newline_indent 4 depth ++ closing
  = block opening closing depth items.
Proof.
  intros Hne. unfold block. destruct items as [|x rest]; [contradiction|].
  rewrite <- (concat_line_breaks (line_break (4 * S depth)) "," (x :: rest) Hne).
  rewrite append_assoc. reflexivity.
Qed.

(** The encoder of [json], with the indentation and the separators [main]
    passes, writes the layout of the specification, at every depth and for
    every value. *)
Lemma iterencode_layout (v : value PyFloat) :
  ∀ depth, iterencode float_repr 4 "," ": " v depth = layout float_repr depth v.
Proof.
  apply (value_nested_ind
           (λ v, ∀ depth, iterencode float_repr 4 "," ": " v depth
                          = layout float_repr depth v)).
  - reflexivity.
  - intros [] depth; reflexivity.
  - reflexivity.
  - reflexivity.
  - reflexivity.
  - intros items IH depth. destruct items as [|x rest]; [reflexivity|].
    assert (Hmap : map (λ item, iterencode float_repr 4 "," ": " item (S depth))
                     (x :: rest)
                   = map (layout float_repr (S depth)) (x :: rest)).
    { apply map_ext_Forall. eapply Forall_impl; [exact IH|].
      intros item Hitem. apply Hitem. }
    cbn [iterencode layout]. rewrite Hmap. apply block_join. discriminate.
  - intros members IH depth. destruct members as [|member rest]; [reflexivity|].
    assert (Hmap : map (λ kv : string * value PyFloat,
                          encode_basestring_ascii kv.1 ++ ": "
                          ++ iterencode float_repr 4 "," ": " kv.2 (S depth))
                     (member :: rest)
                   = map (λ kv : string * value PyFloat,
                            encode_basestring_ascii kv.1 ++ ": "
                            ++ layout float_repr (S depth) kv.2)
                       (member :: rest)).
    { apply map_ext_Forall. eapply Forall_impl; [exact IH|].
      intros kv Hkv. simpl in Hkv. rewrite Hkv. reflexivity. }
    cbn [iterencode layout]. rewrite Hmap. apply block_join. discriminate.
Qed.

Lemma record_of_nonempty (k : nat) (p : string) : record_of sys pf k p ≠ [].
Proof. unfold record_of. destruct (os_stat sys k p); discriminate. Qed.

(** C6, with the item separator the program passes: what is written to
    standard output is one JSON array and a line break, in the layout of the
    specification at every depth: the array is [[]] when there is no path;
    otherwise every object starts on a line of its own after 4 blanks, every
    member of it after 8 blanks and every member of a nested object ([error],
    [owner], [group]) after 12 blanks, the closing bracket under the opening
    one; the item separator is a comma (directly followed by the line break)
    and the key separator is a colon and a blank.  The keys of a record are
    [filename], [success], [error] (an object with the keys [class] and
    [message]) when [os.stat] raised, and otherwise [filename], [success],
    the fourteen other core keys in their fixed order and then the extra
    fields the system has, in the order of [extra_fields]. *)
Theorem stdout_layout (argv : list string) :
  let out := (main float_repr sys argv (file_types pf)).1 in
  let quoted := encode_basestring_ascii in
  stdout out = print (array_text float_repr "," (stats_of out))
  ∧ stdout out = print (layout float_repr 0 (VList (map VDict (stats_of out))))
  ∧ ∀ i p, drop 1 argv !! i = Some p →
      ∃ about, stats_of out !! i = Some about
        ∧ object_text float_repr "," about = layout float_repr 1 (VDict about)
        ∧ match os_stat sys i p with
          | inl e =>
              keys about = ["filename"; "success"; "error"]
              ∧ (∃ error, odict_get about "error" = Some (VDict error)
                          ∧ keys error = ["class"; "message"])
              ∧ layout float_repr 1 (VDict about)
                = "{" ++ line_break 8 ++ quoted "filename" ++ ": " ++ quoted p
                  ++ "," ++ line_break 8 ++ quoted "success" ++ ": " ++ "false"
                  ++ "," ++ line_break 8 ++ quoted "error" ++ ": "
                  ++ "{" ++ line_break 12 ++ quoted "class" ++ ": "
                         ++ quoted (class_name e)
                  ++ "," ++ line_break 12 ++ quoted "message" ++ ": "
                         ++ quoted (message e)
                  ++ line_break 8 ++ "}"
                  ++ line_break 4 ++ "}"
          | inr st =>
              keys about = (core_keys ++ extra_keys st)%list
              ∧ (∃ owner, odict_get about "owner" = Some (VDict owner)
                          ∧ keys owner = ["uid"; "name"]
                          ∧ layout float_repr 2 (VDict owner)
                            = "{" ++ line_break 12 ++ quoted "uid" ++ ": "
                                  ++ int_to_base 10 (st_uid st)
                              ++ "," ++ line_break 12 ++ quoted "name" ++ ": "
                                  ++ match pwd_getpwuid sys i (st_uid st) with
                                     | Some name => quoted name
                                     | None => "null"
                                     end
                              ++ line_break 8 ++ "}")
              ∧ (∃ group, odict_get about "group" = Some (VDict group)
                          ∧ keys group = ["gid"; "name"]
                          ∧ layout float_repr 2 (VDict group)
                            = "{" ++ line_break 12 ++ quoted "gid" ++ ": "
                                  ++ int_to_base 10 (st_gid st)
                              ++ "," ++ line_break 12 ++ quoted "name" ++ ": "
                                  ++ match grp_getgrgid sys i (st_gid st) with
                                     | Some name => quoted name
                                     | None => "null"
                                     end
                              ++ line_break 8 ++ "}")
          end.
Proof.
  intros out quoted. subst out quoted.
  assert (Hdoc : stdout (main float_repr sys argv (file_types pf)).1
                 = print (dumps float_repr 4 "," ": "
                            (VList (map VDict
                               (stats_of (main float_repr sys argv (file_types pf)).1)))))
    by (rewrite main_eq; reflexivity).
  split; [|split].
  - rewrite Hdoc. f_equal. apply dumps_array.
    rewrite main_eq. cbn [stats_of].
    apply Forall_forall. intros about Hin.
    apply list_elem_of_lookup in Hin as [i Hi].
    rewrite list_lookup_imap in Hi.
    destruct (drop 1 argv !! i) as [p|]; [|discriminate].
    injection Hi as <-. apply record_of_nonempty.
  - rewrite Hdoc. f_equal. apply iterencode_layout.
  - intros i p Hp. exists (record_of sys pf i p).
    split; [apply (stats_lookup _ _ _ _ _ _ Hp)|]. split.
    + rewrite <- iterencode_layout.
      pose proof (record_of_nonempty i p) as Hne.
      destruct (record_of sys pf i p) as [|member rest]; [contradiction|reflexivity].
    + unfold record_of. destruct (os_stat sys i p) as [e|st].
      * split; [reflexivity|]. split; [eexists; split; reflexivity|].
        unfold failure_record. cbn [layout block map fst snd String.concat].
        rewrite !append_assoc. reflexivity.
      * split; [|split].
        -- unfold success_record, keys. rewrite map_app. f_equal. apply keys_extras.
        -- eexists. split; [reflexivity|]. split; [reflexivity|].
           destruct (pwd_getpwuid sys i (st_uid st));
             cbn [layout block map fst snd String.concat name_value];
             rewrite !append_assoc; reflexivity.
        -- eexists. split; [reflexivity|]. split; [reflexivity|].
           destruct (grp_getgrgid sys i (st_gid st));
             cbn [layout block map fst snd String.concat name_value];
             rewrite !append_assoc; reflexivity.
Qed.

End Document.

(** ** More on [strmode] *)

(** X1: for every mode that fits [mode_t] and every state of the table,
    [strmode] gives 11 characters, and the last one is a blank, also when
    the type of the file is not known. *)
Theorem strmode_length (pf : platform) (keys : list Z) (mode : Z) :
  fits_mode_t mode →
  let mode_str := (strmode mode (after_lookups keys (file_types pf))).1 in
  String.length mode_str = 11%nat ∧ String.get 10 mode_str = Some " "%char.
Proof.
  intros _ mode_str. subst mode_str. rewrite strmode_eq. cbn [fst].
  rewrite (after_lookups_reads_like keys (file_types pf)).
  destruct (known_entries_shape _ (file_types_known pf (stat.S_IFMT mode)))
    as [[c ->] _].
  split; reflexivity.
Qed.

(** X2: the read and write positions: characters 2, 5 and 8 are [r] when the
    owner, the group and the others may read and [-] otherwise; characters
    3, 6 and 9 are [w] or [-] in the same way for writing. *)
Theorem strmode_read_write_positions (pf : platform) (keys : list Z) (mode : Z) :
  let mode_str := (strmode mode (after_lookups keys (file_types pf))).1 in
  String.get 1 mode_str = Some (if has_bit mode stat.S_IRUSR then "r" else "-")%char
  ∧ String.get 2 mode_str = Some (if has_bit mode stat.S_IWUSR then "w" else "-")%char
  ∧ String.get 4 mode_str = Some (if has_bit mode stat.S_IRGRP then "r" else "-")%char
  ∧ String.get 5 mode_str = Some (if has_bit mode stat.S_IWGRP then "w" else "-")%char
  ∧ String.get 7 mode_str = Some (if has_bit mode stat.S_IROTH then "r" else "-")%char
  ∧ String.get 8 mode_str = Some (if has_bit mode stat.S_IWOTH then "w" else "-")%char.
Proof.
  intros mode_str. subst mode_str. rewrite strmode_eq. cbn [fst].
  rewrite (after_lookups_reads_like keys (file_types pf)).
  destruct (known_entries_shape _ (file_types_known pf (stat.S_IFMT mode)))
    as [[c ->] _].
  rewrite !get_symbol_permissions. repeat split.
Qed.

Lemma if_char_inj (b b' : bool) (c d : ascii) :
  c ≠ d → (if b then c else d) = (if b' then c else d) → b = b'.
Proof. intros Hne. destruct b, b'; congruence. Qed.

Lemma execute_char_inj (upper lower : ascii) (special execute special' execute' : bool) :
  NoDup [upper; lower; "x"%char; "-"%char] →
  execute_char upper lower special execute = execute_char upper lower special' execute' →
  special = special' ∧ execute = execute'.
Proof.
  intros Hnd Heq.
  destruct special, execute, special', execute'; simpl in Heq;
    try (split; reflexivity); exfalso; subst;
    repeat match goal with
    | H : NoDup (_ :: _) |- _ => apply NoDup_cons in H as [? H]
    end; set_solver.
Qed.

Lemma permissions_bits (mode mode' : Z) :
  permissions mode = permissions mode' →
  ∀ k, 0 ≤ k < 12 → Z.testbit mode k = Z.testbit mode' k.
Proof.
  unfold permissions. intros Heq.
  injection Heq as H8 H7 Hu H5 H4 Hg H2 H1 Ho.
  apply if_char_inj in H8, H7, H5, H4, H2, H1; try discriminate.
  apply execute_char_inj in Hu as [H11 H6];
    [|apply (bool_decide_unpack _); reflexivity].
  apply execute_char_inj in Hg as [H10 H3];
    [|apply (bool_decide_unpack _); reflexivity].
  apply execute_char_inj in Ho as [H9 H0];
    [|apply (bool_decide_unpack _); reflexivity].
  intros k Hk.
  assert (k = 0 ∨ k = 1 ∨ k = 2 ∨ k = 3 ∨ k = 4 ∨ k = 5 ∨ k = 6 ∨ k = 7
          ∨ k = 8 ∨ k = 9 ∨ k = 10 ∨ k = 11) as Hc by lia.
  destruct Hc as [->|[->|[->|[->|[->|[->|[->|[->|[->|[->|[->| ->]]]]]]]]]]];
    assumption.
Qed.

Lemma known_entries_symbol_inj (entry entry' : string * string) :
  entry ∈ known_entries → entry' ∈ known_entries → entry.1 = entry'.1 → entry = entry'.
Proof.
  unfold known_entries. intros H H' Heq.
  repeat (apply elem_of_cons in H as [->|H]);
    [..|apply elem_of_nil in H; contradiction];
    repeat (apply elem_of_cons in H' as [->|H']);
    try (apply elem_of_nil in H'; contradiction);
    simpl in Heq; congruence.
Qed.

Lemma string_cons_inj (c c' : ascii) (s s' : string) :
  String c s = String c' s' → c = c' ∧ s = s'.
Proof. intros H. injection H as -> ->. split; reflexivity. Qed.

(** X4: [mode_str] loses nothing of the permissions: two modes that get the
    same string, in whatever states of the table, have the same twelve
    permission bits (read, write and execute for owner, group and others,
    setuid, setgid and sticky) and the same entry of the table. *)
Theorem strmode_determines_permissions (pf : platform) (keys keys' : list Z)
    (mode mode' : Z) :
  (strmode mode (after_lookups keys (file_types pf))).1
  = (strmode mode' (after_lookups keys' (file_types pf))).1 →
  stat.S_IMODE mode = stat.S_IMODE mode'
  ∧ entry_of (file_types pf) (stat.S_IFMT mode)
    = entry_of (file_types pf) (stat.S_IFMT mode').
Proof.
  rewrite !strmode_eq. cbn [fst].
  rewrite !(after_lookups_reads_like _ (file_types pf)).
  pose proof (file_types_known pf (stat.S_IFMT mode)) as Hk.
  pose proof (file_types_known pf (stat.S_IFMT mode')) as Hk'.
  destruct (known_entries_shape _ Hk) as [[c Hc] _].
  destruct (known_entries_shape _ Hk') as [[c' Hc'] _].
  rewrite Hc, Hc'. intros Heq.
  apply (string_cons_inj c c' (permissions mode) (permissions mode')) in Heq
    as [Hsym Hperm].
  split.
  - apply Z.bits_inj'. intros k Hk0. unfold stat.S_IMODE.
    change 0xFFF with (Z.ones 12). rewrite !Z.land_spec.
    destruct (Z.lt_ge_cases k 12) as [Hlt|Hge].
    + rewrite (permissions_bits _ _ Hperm k) by lia. reflexivity.
    + rewrite Z.ones_spec_high by lia. rewrite !andb_false_r. reflexivity.
  - apply known_entries_symbol_inj; [exact Hk|exact Hk'|]. rewrite Hc, Hc', Hsym. reflexivity.
Qed.

(** ** More on the table *)

(** X5: lookups never change what the table answers.  After any sequence of
    lookups every key reads as before; every entry that was there is still
    there; and an entry that is new belongs to a key that was looked up and
    is the default. *)
Theorem lookups_keep_answers (keys : list Z) (tbl : gmap Z (string * string)) :
  (∀ key, (getitem key (after_lookups keys tbl)).1 = (getitem key tbl).1)
  ∧ tbl ⊆ after_lookups keys tbl
  ∧ (∀ key entry, after_lookups keys tbl !! key = Some entry →
       tbl !! key = Some entry ∨ (key ∈ keys ∧ entry = default_factory)).
Proof.
  split; [|split].
  - intros key. rewrite !getitem_fst. apply after_lookups_reads_like.
  - revert tbl. induction keys as [|k keys IH]; intros tbl; [reflexivity|].
    cbn [after_lookups fold_left]. etrans; [|apply IH].
    unfold getitem. destruct (tbl !! k) eqn:Hk; simpl; [reflexivity|].
    apply insert_subseteq, Hk.
  - revert tbl. induction keys as [|k keys IH]; intros tbl key entry Hafter.
    + left. exact Hafter.
    + cbn [after_lookups fold_left] in Hafter.
      apply IH in Hafter as [Hin|[Hin ->]].
      * unfold getitem in Hin. destruct (tbl !! k) eqn:Hk; simpl in Hin;
          [left; exact Hin|].
        destruct (decide (k = key)) as [->|Hne].
        -- rewrite lookup_insert_eq in Hin. injection Hin as <-.
           right. split; [left|reflexivity].
        -- rewrite lookup_insert_ne in Hin by done. left. exact Hin.
      * right. split; [right; exact Hin|reflexivity].
Qed.

(** ** The table after a run *)

Section TableFacts.

Context {PyFloat : Type}.
Variable float_repr : PyFloat → string.
Variable sys : system PyFloat.

Lemma visit_table (k : nat) (filename : string) (ok : bool)
    (tbl : gmap Z (string * string)) :
  (visit sys k filename ok tbl).2
  = after_lookups (looked_up sys k [filename]) tbl.
Proof.
  unfold visit. cbn [odict_set looked_up]. unfold mbind, Py_bind, mret, Py_ret.
  destruct (os_stat sys k filename) as [e|st]; [reflexivity|].
  rewrite describe_eq. reflexivity.
Qed.

Lemma loop_table (filenames : list string) :
  ∀ (k : nat) (stats : list (list (string * value PyFloat))) (ok : bool)
    (tbl : gmap Z (string * string)),
    (loop sys k filenames stats ok tbl).2
    = after_lookups (looked_up sys k filenames) tbl.
Proof.
  induction filenames as [|f rest IH]; intros k stats ok tbl; [reflexivity|].
  cbn [loop]. unfold mbind, Py_bind.
  pose proof (visit_table k f ok tbl) as Hv.
  destruct (visit sys k f ok tbl) as [[about ok'] tbl']. simpl in Hv. subst tbl'.
  rewrite IH. cbn [looked_up].
  destruct (os_stat sys k f) as [e|st]; reflexivity.
Qed.

Lemma main_table (argv : list string) (tbl : gmap Z (string * string)) :
  (main float_repr sys argv tbl).2 = after_lookups (looked_up sys 0 (drop 1 argv)) tbl.
Proof.
  unfold main, mbind, Py_bind, mret, Py_ret.
  pose proof (loop_table (drop 1 argv) 0 [] true tbl) as Hl.
  destruct (loop sys 0 (drop 1 argv) [] true tbl) as [[stats ok] tbl'].
  exact Hl.
Qed.

End TableFacts.

(** ** More on [main] *)

Section MoreFacts.

Context {PyFloat : Type}.
Variable float_repr : PyFloat → string.
Variable sys : system PyFloat.
Variable pf : platform.

(** X6: what a run leaves in [file_types]: the table of the start after the
    lookups of the type bits of the modes [os.stat] returned, one after the
    other.  Every key reads in it as it did at the start. *)
Theorem main_final_table (argv : list string) :
  let final := (main float_repr sys argv (file_types pf)).2 in
  final = after_lookups (looked_up sys 0 (drop 1 argv)) (file_types pf)
  ∧ ∀ key, (getitem key final).1 = (getitem key (file_types pf)).1.
Proof.
  intros final.
  assert (Hfinal : final = after_lookups (looked_up sys 0 (drop 1 argv)) (file_types pf))
    by apply main_table.
  split; [exact Hfinal|].
  intros key. rewrite Hfinal, !getitem_fst. apply after_lookups_reads_like.
Qed.

(** X7: the record of a path on which [os.stat] returned reports what
    [os.stat] returned: [mode], [inode], [device], [links], [size] and the
    three times are the fields of the result, unchanged, and
    [followed_symlink] is the answer of [os.path.islink] for the path. *)
Theorem success_record_fields (argv : list string) (i : nat) (p : string)
    (st : stat_result PyFloat) :
  drop 1 argv !! i = Some p →
  os_stat sys i p = inr st →
  ∃ about,
    stats_of (main float_repr sys argv (file_types pf)).1 !! i = Some about
    ∧ odict_get about "filename" = Some (VStr p)
    ∧ odict_get about "followed_symlink" = Some (VBool (os_path_islink sys i p))
    ∧ odict_get about "mode" = Some (VInt (st_mode st))
    ∧ odict_get about "inode" = Some (VInt (st_ino st))
    ∧ odict_get about "device" = Some (VInt (st_dev st))
    ∧ odict_get about "links" = Some (VInt (st_nlink st))
    ∧ odict_get about "size" = Some (VInt (st_size st))
    ∧ odict_get about "access_time" = Some (VFloat (st_atime st))
    ∧ odict_get about "modify_time" = Some (VFloat (st_mtime st))
    ∧ odict_get about "change_time" = Some (VFloat (st_ctime st)).
Proof.
  intros Hp Hst. eexists.
  split; [apply (stats_lookup_success float_repr sys pf argv i p st Hp Hst)|].
  repeat split.
Qed.

(** X8: when the user database knows the owner, [owner] holds the uid and the
    name found; when the group database knows the group, [group] holds the
    gid and the name found. *)
Theorem known_owner_name (argv : list string) (i : nat) (p : string)
    (st : stat_result PyFloat) :
  drop 1 argv !! i = Some p →
  os_stat sys i p = inr st →
  ∃ about,
    stats_of (main float_repr sys argv (file_types pf)).1 !! i = Some about
    ∧ (∀ name, pwd_getpwuid sys i (st_uid st) = Some name →
         odict_get about "owner"
         = Some (VDict [("uid", VInt (st_uid st)); ("name", VStr name)]))
    ∧ (∀ name, grp_getgrgid sys i (st_gid st) = Some name →
         odict_get about "group"
         = Some (VDict [("gid", VInt (st_gid st)); ("name", VStr name)])).
Proof.
  intros Hp Hst. eexists.
  split; [apply (stats_lookup_success float_repr sys pf argv i p st Hp Hst)|].
  split; intros name Hname; cbn; rewrite Hname; reflexivity.
Qed.

Lemma odict_get_extras (st : stat_result PyFloat) (fields : list (string * string)) :
  NoDup (map snd fields) →
  ∀ attr name, (attr, name) ∈ fields →
    odict_get (omap (λ field : string * string,
                       (λ v, (field.2, v)) <$> st_attr st field.1) fields) name
    = st_attr st attr.
Proof.
  induction fields as [|[attr0 name0] fields IH]; intros Hnd attr name Hin.
  - apply elem_of_nil in Hin. contradiction.
  - cbn [map snd] in Hnd. apply NoDup_cons in Hnd as [Hfresh Hnd].
    cbn [omap list_omap fst snd].
    apply elem_of_cons in Hin as [Heq|Hin].
    + injection Heq as -> ->.
      destruct (st_attr st attr0) as [v|] eqn:Hattr; simpl.
      * rewrite String.eqb_refl. reflexivity.
      * clear IH. induction fields as [|[attr1 name1] fields IH]; [reflexivity|].
        cbn [omap list_omap fst snd].
        assert (name1 ≠ name0) as Hne by (intros ->; apply Hfresh; left).
        assert (name0 ∉ map snd fields) as Hfresh'
          by (intros H; apply Hfresh; right; exact H).
        apply NoDup_cons in Hnd as [_ Hnd].
        destruct (st_attr st attr1); simpl.
        -- apply String.eqb_neq in Hne. rewrite Hne. apply IH; assumption.
        -- apply IH; assumption.
    + assert (name0 ≠ name) as Hne.
      { intros ->. apply Hfresh. apply list_elem_of_fmap. exists (attr, name). done. }
      destruct (st_attr st attr0) as [v|]; simpl.
      * apply String.eqb_neq in Hne. rewrite Hne. apply IH; assumption.
      * apply IH; assumption.
Qed.

Lemma odict_get_extras_other (st : stat_result PyFloat) (key : string) :
  key ∉ map snd extra_fields → odict_get (extras st) key = None.
Proof.
  unfold extras. induction extra_fields as [|[attr name] fields IH]; intros Hnot;
    [reflexivity|].
  cbn [omap list_omap fst snd].
  assert (name ≠ key) as Hne by (intros ->; apply Hnot; left).
  assert (key ∉ map snd fields) as Hnot' by (intros H; apply Hnot; right; exact H).
  destruct (st_attr st attr); simpl.
  - apply String.eqb_neq in Hne. rewrite Hne. apply IH, Hnot'.
  - apply IH, Hnot'.
Qed.

(** X9: the extra fields: for each pair of [extra_fields], a record of a path
    on which [os.stat] returned has the output name as a key exactly when
    the result has the attribute, and then with the value of the attribute;
    an attribute the result lacks leaves no key behind, not even a null. *)
Theorem extra_field_lookup (argv : list string) (i : nat) (p : string)
    (st : stat_result PyFloat) (attr name : string) :
  drop 1 argv !! i = Some p →
  os_stat sys i p = inr st →
  (attr, name) ∈ extra_fields →
  ∃ about,
    stats_of (main float_repr sys argv (file_types pf)).1 !! i = Some about
    ∧ odict_get about name = st_attr st attr
    ∧ (name ∈ keys about ↔ is_Some (st_attr st attr)).
Proof.
  intros Hp Hst Hin. eexists.
  split; [apply (stats_lookup_success float_repr sys pf argv i p st Hp Hst)|].
  assert (Hnd : NoDup (map snd extra_fields))
    by (apply (bool_decide_unpack _); vm_compute; reflexivity).
  assert (Hcore : name ∉ core_keys).
  { unfold extra_fields in Hin.
    repeat (apply elem_of_cons in Hin as [Hin|Hin];
            [injection Hin as -> ->; apply (bool_decide_unpack _); reflexivity|]).
    apply elem_of_nil in Hin. contradiction. }
  split.
  - unfold success_record. rewrite odict_get_app.
    match goal with
    | |- match ?g with _ => _ end = _ => assert (Hnone : g = None)
    end.
    { unfold core_keys in Hcore. cbn [odict_get].
      repeat match goal with
      | |- (if String.eqb ?k name then _ else _) = None =>
          destruct (String.eqb_spec k name) as [Heq|_];
          [exfalso; apply Hcore; rewrite <- Heq; set_solver|]
      end. reflexivity. }
    rewrite Hnone. apply (odict_get_extras st extra_fields Hnd attr name Hin).
  - unfold success_record, keys. rewrite map_app.
    change (map fst (extras st)) with (keys (extras st)).
    rewrite keys_extras, elem_of_app. unfold extra_keys. split.
    + intros [Hc|He]; [contradiction|].
      apply list_elem_of_fmap in He as ([attr' name'] & Hname & Hf).
      simpl in Hname. subst name'.
      apply list_elem_of_filter in Hf as [Hsome Hin'].
      simpl in Hsome.
      rewrite <- (odict_get_extras st extra_fields Hnd attr name Hin).
      rewrite (odict_get_extras st extra_fields Hnd attr' name Hin'). exact Hsome.
    + intros Hsome. right. apply list_elem_of_fmap. exists (attr, name).
      split; [reflexivity|]. apply list_elem_of_filter. split; assumption.
Qed.

Lemma record_of_success_flag (k : nat) (p : string) :
  odict_get (record_of sys pf k p) "success" = Some (VBool (stat_succeeds sys k p)).
Proof. unfold record_of, stat_succeeds. destruct (os_stat sys k p); reflexivity. Qed.

(** X10: every record has [filename] and [success].  It has [error] exactly when
    [os.stat] raised, and then none of the fourteen keys that describe the
    file; when [os.stat] returned it has all of these and no [error]. *)
Theorem record_success_or_error (argv : list string) (i : nat) (p : string) :
  drop 1 argv !! i = Some p →
  ∃ about,
    stats_of (main float_repr sys argv (file_types pf)).1 !! i = Some about
    ∧ odict_get about "filename" = Some (VStr p)
    ∧ odict_get about "success" = Some (VBool (stat_succeeds sys i p))
    ∧ (is_Some (odict_get about "error") ↔ stat_succeeds sys i p = false)
    ∧ ∀ key, key ∈ drop 2 core_keys →
        (is_Some (odict_get about key) ↔ stat_succeeds sys i p = true).
Proof.
  intros Hp. exists (record_of sys pf i p).
  split; [apply (stats_lookup float_repr sys pf argv i p Hp)|].
  split; [apply record_of_filename|]. split; [apply record_of_success_flag|].
  unfold record_of, stat_succeeds.
  destruct (os_stat sys i p) as [e|st].
  - split; [split; [reflexivity|eauto]|].
    intros key Hkey. unfold core_keys in Hkey. cbn [drop] in Hkey.
    repeat (apply elem_of_cons in Hkey as [->|Hkey];
            [split; [intros [v Hv]; discriminate|discriminate]|]).
    apply elem_of_nil in Hkey. contradiction.
  - split.
    + unfold success_record. rewrite odict_get_app. cbn [odict_get String.eqb Ascii.eqb Bool.eqb].
      rewrite odict_get_extras_other
        by (apply (bool_decide_unpack _); vm_compute; reflexivity).
      split; [intros [v Hv]; discriminate|discriminate].
    + intros key Hkey. unfold core_keys in Hkey. cbn [drop] in Hkey.
      repeat (apply elem_of_cons in Hkey as [->|Hkey];
              [split; [reflexivity|intros _; eexists; reflexivity]|]).
      apply elem_of_nil in Hkey. contradiction.
Qed.

(** X11: the exit status can be read off the document: it is 0 exactly when
    every record has [success: true]. *)
Theorem exit_status_from_records (argv : list string) :
  let out := (main float_repr sys argv (file_types pf)).1 in
  exit_status out = 0
  ↔ Forall (λ about, odict_get about "success" = Some (VBool true)) (stats_of out).
Proof.
  intros out. subst out. rewrite main_eq. cbn [exit_status stats_of].
  rewrite Forall_lookup. split.
  - intros Hexit j about Hj.
    destruct (all_succeed sys 0 (drop 1 argv)) eqn:Hall; [|discriminate].
    rewrite list_lookup_imap in Hj.
    destruct (drop 1 argv !! j) as [p|] eqn:Hp; [|discriminate].
    injection Hj as <-. rewrite record_of_success_flag.
    pose proof (proj1 (all_succeed_spec sys (drop 1 argv) 0) Hall j p Hp) as Hs.
    simpl in Hs. rewrite Hs. reflexivity.
  - intros Hall.
    assert (Hok : all_succeed sys 0 (drop 1 argv) = true).
    { apply all_succeed_spec. intros j p Hp.
      specialize (Hall j (record_of sys pf j p)).
      rewrite list_lookup_imap, Hp in Hall. specialize (Hall eq_refl).
      rewrite record_of_success_flag in Hall. injection Hall as Hall. exact Hall. }
    rewrite Hok. reflexivity.
Qed.

Lemma all_succeed_later (n : nat) (filenames : list string) :
  ∀ k, all_succeed (later sys n) k filenames = all_succeed sys (n + k) filenames.
Proof.
  induction filenames as [|f rest IH]; intros k; [reflexivity|].
  cbn [all_succeed]. rewrite IH, Nat.add_succ_r. reflexivity.
Qed.

Lemma all_succeed_app (filenames filenames' : list string) :
  ∀ k, all_succeed sys k (filenames ++ filenames')
       = all_succeed sys k filenames
         && all_succeed sys (length filenames + k) filenames'.
Proof.
  induction filenames as [|f rest IH]; intros k; [reflexivity|].
  cbn [app all_succeed length]. rewrite IH, andb_assoc, Nat.add_succ_r. reflexivity.
Qed.

(** X12: A run on two lists of paths, one after the other, is the run on the
    first list followed by the run on the second with the system as it
    answers later: the records are those of the two runs in this order, and
    the exit status is the larger of the two. *)
Theorem main_app (prog prog' : string) (paths paths' : list string) :
  let out := (main float_repr sys (prog :: paths ++ paths') (file_types pf)).1 in
  let out1 := (main float_repr sys (prog :: paths) (file_types pf)).1 in
  let out2 := (main float_repr (later sys (length paths)) (prog' :: paths')
                 (file_types pf)).1 in
  stats_of out = (stats_of out1 ++ stats_of out2)%list
  ∧ exit_status out = Z.max (exit_status out1) (exit_status out2).
Proof.
  intros out out1 out2. subst out out1 out2.
  rewrite !main_eq. cbn [stats_of exit_status drop]. rewrite !drop_0. split.
  - rewrite imap_app. reflexivity.
  - rewrite all_succeed_app, all_succeed_later, Nat.add_0_r.
    destruct (all_succeed sys 0 paths), (all_succeed sys (length paths) paths');
      reflexivity.
Qed.

Lemma record_of_same_answers_for (sys' : system PyFloat) (k : nat) (p : string) :
  same_answers_for sys k p sys' → record_of sys' pf k p = record_of sys pf k p.
Proof.
  intros (Hstat & Hids). unfold record_of, success_record.
  rewrite Hstat. destruct (os_stat sys k p) as [e|st]; [reflexivity|].
  destruct (Hids st eq_refl) as (-> & -> & ->). reflexivity.
Qed.

Lemma all_succeed_same (sys' : system PyFloat) (filenames : list string) :
  ∀ k, (∀ i p, filenames !! i = Some p →
               os_stat sys' (k + i) p = os_stat sys (k + i) p) →
       all_succeed sys' k filenames = all_succeed sys k filenames
       ∧ looked_up sys' k filenames = looked_up sys k filenames.
Proof.
  induction filenames as [|f rest IH]; intros k Hsame; [split; reflexivity|].
  cbn [all_succeed looked_up]. unfold stat_succeeds.
  pose proof (Hsame 0%nat f eq_refl) as Hf. rewrite Nat.add_0_r in Hf. rewrite Hf.
  destruct (IH (S k)) as [-> ->]; [|split; reflexivity].
  intros i p Hi. specialize (Hsame (S i) p Hi).
  rewrite Nat.add_succ_r in Hsame. exact Hsame.
Qed.

(** X14: the program asks the system about nothing but the paths it is given:
    [os.stat] for each path and, only when it returns, [os.path.islink] for
    the path and the names of the owner and the group reported.  A system
    that answers these calls in the same way gives the same records, the
    same document, the same exit status and the same table. *)
Theorem main_same_answers (sys' : system PyFloat) (argv : list string) :
  (∀ i p, drop 1 argv !! i = Some p → same_answers_for sys i p sys') →
  main float_repr sys' argv (file_types pf) = main float_repr sys argv (file_types pf).
Proof.
  intros Hsame.
  assert (Hrec : imap (record_of sys' pf) (drop 1 argv)
                 = imap (record_of sys pf) (drop 1 argv)).
  { apply imap_ext. intros i p Hp. apply record_of_same_answers_for, Hsame, Hp. }
  destruct (all_succeed_same sys' (drop 1 argv) 0) as [Hall Hlook].
  { intros i p Hp. apply (Hsame i p Hp). }
  apply injective_projections.
  - rewrite !main_eq, Hrec, Hall. reflexivity.
  - rewrite !main_table, Hlook. reflexivity.
Qed.

Lemma literal_keys (key : Z) (entry : string * string) :
  file_types_literal !! key = Some entry → key ∈ standard_keys.
Proof.
  intros Hget. assert (Hdom : key ∈ dom file_types_literal)
    by (apply elem_of_dom; eauto).
  unfold file_types_literal in Hdom. rewrite dom_list_to_map_L in Hdom.
  apply elem_of_list_to_set in Hdom. exact Hdom.
Qed.

(** X15: the record names the type of the file.  When the type bits of the mode
    are one of the seven keys of the dictionary literal, [filetype] is the
    name the literal gives and [mode_str] begins with its symbol; when they
    are no key of the table at all, [filetype] is [unknown] and [mode_str]
    begins with [?]. *)
Theorem record_filetype (argv : list string) (i : nat) (p : string)
    (st : stat_result PyFloat) :
  platform_ok pf →
  drop 1 argv !! i = Some p →
  os_stat sys i p = inr st →
  ∃ about,
    stats_of (main float_repr sys argv (file_types pf)).1 !! i = Some about
    ∧ (∀ symbol name,
         file_types_literal !! stat.S_IFMT (st_mode st) = Some (symbol, name) →
         odict_get about "filetype" = Some (VStr name)
         ∧ odict_get about "mode_str"
           = Some (VStr (symbol ++ permissions (st_mode st))))
    ∧ (stat.S_IFMT (st_mode st) ∉ dom (file_types pf) →
       odict_get about "filetype" = Some (VStr "unknown")
       ∧ odict_get about "mode_str" = Some (VStr ("?" ++ permissions (st_mode st)))).
Proof.
  intros Hok Hp Hst. eexists.
  split; [apply (stats_lookup_success float_repr sys pf argv i p st Hp Hst)|].
  unfold entry_of. split.
  - intros symbol name Hlit.
    rewrite (file_types_standard pf _ Hok (literal_keys _ _ Hlit)), Hlit.
    split; reflexivity.
  - intros Hnot. apply not_elem_of_dom in Hnot. rewrite Hnot. split; reflexivity.
Qed.

End MoreFacts.

(** ** More on ordered dictionaries *)

Section MoreDictionaries.

Context {PyFloat : Type}.

Lemma odict_set_get (d : list (string * value PyFloat)) (key key' : string)
    (v : value PyFloat) :
  odict_get (odict_set d key v) key'
  = if String.eqb key key' then Some v else odict_get d key'.
Proof.
  induction d as [|[k v0] d IH]; cbn [odict_set odict_get].
  - destruct (String.eqb key key'); reflexivity.
  - destruct (String.eqb_spec k key) as [->|Hne]; cbn [odict_get].
    + destruct (String.eqb key key'); reflexivity.
    + rewrite IH. destruct (String.eqb_spec k key') as [->|Hne']; [|reflexivity].
      apply String.eqb_neq in Hne. rewrite String.eqb_sym, Hne. reflexivity.
Qed.

Lemma odict_set_keys (d : list (string * value PyFloat)) (key : string)
    (v : value PyFloat) :
  keys (odict_set d key v)
  = if bool_decide (key ∈ keys d) then keys d else (keys d ++ [key])%list.
Proof.
  unfold keys. induction d as [|[k v0] d IH]; [reflexivity|].
  cbn [odict_set map fst]. destruct (String.eqb_spec k key) as [->|Hne].
  - rewrite bool_decide_eq_true_2 by left. reflexivity.
  - cbn [map fst]. rewrite IH.
    destruct (bool_decide_reflect (key ∈ map fst d)) as [Hin|Hnin].
    + rewrite bool_decide_eq_true_2 by (right; exact Hin). reflexivity.
    + rewrite bool_decide_eq_false_2; [reflexivity|].
      intros Hin. apply elem_of_cons in Hin as [->|Hin]; [apply Hne; reflexivity|].
      apply Hnin, Hin.
Qed.

Lemma odict_get_keys (d : list (string * value PyFloat)) (key : string)
    (v : value PyFloat) :
  odict_get d key = Some v → key ∈ keys d.
Proof.
  unfold keys. induction d as [|[k v0] d IH]; [discriminate|].
  cbn [odict_get map fst]. destruct (String.eqb_spec k key) as [->|Hne].
  - intros _. left.
  - intros Hget. right. apply IH, Hget.
Qed.

(** X16: assigning to a key of an ordered dictionary: the key then reads as the
    value assigned and every other key reads as before; a key that was
    there keeps its place and a new key goes to the end; and if no key
    occurred twice before, none does afterwards. *)
Theorem odict_set_spec (d : list (string * value PyFloat)) (key : string)
    (v : value PyFloat) :
  odict_get (odict_set d key v) key = Some v
  ∧ (∀ key', key' ≠ key → odict_get (odict_set d key v) key' = odict_get d key')
  ∧ keys (odict_set d key v)
    = (if bool_decide (key ∈ keys d) then keys d else (keys d ++ [key])%list)
  ∧ (NoDup (keys d) → NoDup (keys (odict_set d key v))).
Proof.
  split; [|split; [|split]].
  - rewrite odict_set_get, String.eqb_refl. reflexivity.
  - intros key' Hne. rewrite odict_set_get.
    destruct (String.eqb_spec key key') as [->|_]; [contradiction|reflexivity].
  - apply odict_set_keys.
  - intros Hnd. rewrite odict_set_keys.
    destruct (bool_decide_reflect (key ∈ keys d)) as [Hin|Hnin]; [exact Hnd|].
    apply NoDup_app. split; [exact Hnd|]. split; [|apply NoDup_singleton].
    intros k Hk Hk'. apply list_elem_of_singleton in Hk'. subst k. contradiction.
Qed.

(** X17: assigning through a key that holds a dictionary, as in
    [about["owner"]["uid"] = uid]: the inner dictionary gets the new entry
    and the outer one sees it, while the keys of the outer dictionary, their
    order and what the other keys hold stay as they were. *)
Theorem odict_set_in_spec (d inner : list (string * value PyFloat))
    (key key2 : string) (v : value PyFloat) :
  odict_get d key = Some (VDict inner) →
  odict_get (odict_set_in d key key2 v) key = Some (VDict (odict_set inner key2 v))
  ∧ (∀ key', key' ≠ key → odict_get (odict_set_in d key key2 v) key' = odict_get d key')
  ∧ keys (odict_set_in d key key2 v) = keys d.
Proof.
  intros Hget. unfold odict_set_in. rewrite Hget. split; [|split].
  - rewrite odict_set_get, String.eqb_refl. reflexivity.
  - intros key' Hne. rewrite odict_set_get.
    destruct (String.eqb_spec key key') as [->|_]; [contradiction|reflexivity].
  - rewrite odict_set_keys. rewrite bool_decide_eq_true_2; [reflexivity|].
    eapply odict_get_keys. exact Hget.
Qed.

End MoreDictionaries.

(** ** Reading the document back *)

Lemma digits_aux_head (base : Z) (fuel : nat) :
  0 < base →
  ∀ n acc, 0 ≤ n →
    ∃ d rest, 0 ≤ d < base ∧ digits_aux base fuel n acc = String (digit_char d) rest.
Proof.
  intros Hbase. induction fuel as [|fuel IH]; intros n acc Hn.
  - exists (n mod base), acc. split; [apply Z.mod_pos_bound; lia|reflexivity].
  - cbn [digits_aux]. destruct (n <? base).
    + exists (n mod base), acc. split; [apply Z.mod_pos_bound; lia|reflexivity].
    + apply IH. apply Z.div_pos; lia.
Qed.

Lemma digit_char_not_minus (d : Z) :
  0 ≤ d < 10 → Ascii.eqb (digit_char d) "-" = false.
Proof.
  intros Hd.
  assert (d = 0 ∨ d = 1 ∨ d = 2 ∨ d = 3 ∨ d = 4 ∨ d = 5 ∨ d = 6 ∨ d = 7
          ∨ d = 8 ∨ d = 9) as Hc by lia.
  destruct Hc as [->|[->|[->|[->|[->|[->|[->|[->|[->| ->]]]]]]]]]; reflexivity.
Qed.

(** X18: the numeral [json] writes for an integer ([int.__repr__]) denotes that
    integer, whatever its sign and size: no digit is lost or added. *)
Theorem int_of_decimal_repr (n : Z) : int_of_decimal (int_to_base 10 n) = Some n.
Proof.
  unfold int_to_base. destruct (Z.ltb_spec n 0) as [Hneg|Hpos].
  - destruct (digits_aux_head 10 (Z.to_nat (Z.log2 (- n))) ltac:(lia) (- n) ""
                ltac:(lia)) as (d & rest & Hd & Hhead).
    pose proof (numeral_value_digits 10 (- n) ltac:(lia) ltac:(lia)) as Hval.
    unfold digits in *. rewrite Hhead in *.
    change (int_of_decimal ("-" ++ String (digit_char d) rest))
      with (Z.opp <$> numeral_value 10 (String (digit_char d) rest) 0).
    rewrite Hval. simpl. f_equal. lia.
  - destruct (digits_aux_head 10 (Z.to_nat (Z.log2 n)) ltac:(lia) n ""
                ltac:(lia)) as (d & rest & Hd & Hhead).
    pose proof (numeral_value_digits 10 n ltac:(lia) ltac:(lia)) as Hval.
    unfold digits in *. rewrite Hhead in *.
    cbn [int_of_decimal]. rewrite digit_char_not_minus by exact Hd. exact Hval.
Qed.

Lemma scanstring_escape_char (c : ascii) (tail : string) :
  scanstring (escape_char c ++ tail)
  = match scanstring tail with
    | Some (text, after) => Some (String c text, after)
    | None => None
    end.
Proof. destruct c as [[] [] [] [] [] [] [] []]; reflexivity. Qed.

Lemma scanstring_escape (s rest : string) :
  scanstring (escape s ++ String dquote rest) = Some (s, rest).
Proof.
  induction s as [|c s IH]; [reflexivity|].
  cbn [escape]. rewrite append_assoc, scanstring_escape_char, IH.
  reflexivity.
Qed.

Lemma all_printable_app (s s' : string) :
  all_printable (s ++ s') = all_printable s && all_printable s'.
Proof.
  induction s as [|c s IH]; [reflexivity|].
  change (all_printable (String c (s ++ s'))
          = all_printable (String c s) && all_printable s').
  cbn [all_printable]. rewrite IH, andb_assoc. reflexivity.
Qed.

Lemma all_printable_escape_char (c : ascii) : all_printable (escape_char c) = true.
Proof. destruct c as [[] [] [] [] [] [] [] []]; reflexivity. Qed.

Lemma all_printable_escape (s : string) : all_printable (escape s) = true.
Proof.
  induction s as [|c s IH]; [reflexivity|].
  cbn [escape]. rewrite all_printable_app, all_printable_escape_char, IH.
  reflexivity.
Qed.

(** X19: strings of code points below 256 (the strings of this embedding)
    survive the document.  The quoted form [json] writes for such a string
    (a filename, an error message, a user name) consists of printable ASCII
    characters only, whichever of these code points the string contains
    (quotes, backslashes, control characters, bytes above 127); and reading
    it back, with anything behind it, gives the string unchanged and what
    was behind it. *)
Theorem read_string_encode (s rest : string) :
  all_printable (encode_basestring_ascii s) = true
  ∧ read_string (encode_basestring_ascii s ++ rest) = Some (s, rest).
Proof.
  unfold encode_basestring_ascii. split.
  - change (all_printable (String dquote "" ++ (escape s ++ String dquote "")) = true).
    rewrite !all_printable_app, all_printable_escape. reflexivity.
  - change (scanstring ((escape s ++ String dquote "") ++ rest) = Some (s, rest)).
    rewrite append_assoc. apply scanstring_escape.
Qed.

(** ** The theorems at the sample system *)

Lemma linux3_ok : platform_ok linux3.
Proof. intros _. repeat split; apply (bool_decide_unpack _); reflexivity. Defined.

Lemma solaris3_ok : platform_ok solaris3.
Proof. intros _. repeat split; apply (bool_decide_unpack _); reflexivity. Defined.

Lemma main_one_record_per_path_witness :
  let out := (main seconds_repr sample_sys sample_argv (file_types linux3)).1 in
  drop 1 sample_argv !! 1%nat = Some "missing"
  ∧ length (stats_of out) = 3%nat
  ∧ ∃ about, stats_of out !! 1%nat = Some about
      ∧ odict_get about "filename" = Some (VStr "missing")
      ∧ odict_get about "success" = Some (VBool false).
Proof.
  intros out. subst out. split; [reflexivity|].
  destruct (main_one_record_per_path seconds_repr sample_sys linux3 sample_argv)
    as (Hlen & _ & _ & Hrec).
  split; [exact Hlen|].
  destruct (Hrec 1%nat "missing" eq_refl) as (about & Habout & Hname & Hsuccess & _).
  exists about. split; [exact Habout|]. split; [exact Hname|exact Hsuccess].
Defined.

(** The exit status is 1 when one path is missing, the record of the
    missing path is the error record, and the record of [notes.txt] is the
    one it has when it is the only argument. *)
Lemma main_exit_status_witness :
  let out := (main seconds_repr sample_sys sample_argv (file_types linux3)).1 in
  exit_status out = 1
  ∧ stats_of out !! 1%nat
    = Some [("filename", VStr "missing");
            ("success", VBool false);
            ("error", VDict [("class", VStr "FileNotFoundError");
                             ("message", VStr "[Errno 2] No such file or directory")])]
  ∧ stats_of (main seconds_repr sample_sys ["statjson"; "notes.txt"] (file_types linux3)).1
      !! 0%nat
    = stats_of out !! 0%nat.
Proof.
  intros out. subst out.
  destruct (main_exit_status seconds_repr sample_sys linux3 sample_argv)
    as (_ & _ & Hone & Hfail & Hother).
  split; [|split].
  - apply Hone. exists 1%nat, "missing", no_such_file. split; reflexivity.
  - apply (Hfail 1%nat "missing" no_such_file); reflexivity.
  - apply (Hother sample_sys ["statjson"; "notes.txt"] 0%nat); [reflexivity|].
    repeat split.
Defined.

Lemma mode_str_regular_file_witness :
  platform_ok linux3
  ∧ (∃ about,
       stats_of (main seconds_repr sample_sys sample_argv (file_types linux3)).1 !! 0%nat
       = Some about
       ∧ odict_get about "mode_str" = Some (VStr "-rw-r--r-- "))
  ∧ (∃ about,
       stats_of (main seconds_repr sample_sys sample_argv (file_types linux3)).1 !! 2%nat
       = Some about
       ∧ odict_get about "mode_str" = Some (VStr "drwxr-xr-x ")).
Proof.
  split; [exact linux3_ok|]. split.
  - destruct (mode_str_regular_file seconds_repr sample_sys linux3 sample_argv
                0 "notes.txt" notes_txt linux3_ok eq_refl eq_refl)
      as (about & mode_str & Habout & Hstr & Hreg & _).
    destruct (Hreg eq_refl) as (_ & _ & _ & Hperm).
    exists about. split; [exact Habout|].
    rewrite Hstr, (Hperm eq_refl). reflexivity.
  - destruct (mode_str_regular_file seconds_repr sample_sys linux3 sample_argv
                2 "home" home_dir linux3_ok eq_refl eq_refl)
      as (about & mode_str & Habout & Hstr & _ & Hdir).
    exists about. split; [exact Habout|].
    rewrite Hstr, (Hdir eq_refl eq_refl eq_refl eq_refl). reflexivity.
Defined.

(** The keys added under Python 3.4 or later are keys like the others: on
    Solaris a door with mode 0o150644 gets [D] and [door]. *)
Example door_on_solaris :
  (getitem (stat.S_IFMT 0xD1A4) (file_types solaris3)).1 = ("D", "door")
  ∧ (strmode 0xD1A4 (file_types solaris3)).1 = "Drw-r--r-- ".
Proof. repeat split. Qed.

(** C5: a mode without type bits is none of the seven keys listed and, on
    Linux, no type the platform has; the claim gives it [?] and [unknown].
    Under Python 3.4 or later the three assignments of lines 66 to 68 store
    the entry for whiteouts under the key 0 there, so the program answers [w]
    and [whiteout] instead, in the table and in the record; an interpreter
    before 3.4, which skips these lines, answers [?] and [unknown]. *)
Theorem no_type_bits_is_whiteout :
  let argv := ["statjson"; "/proc/self/fd/3"] in
  stat.S_IFMT (st_mode anon_inode) = 0
  ∧ (0 ∉ standard_keys)
  ∧ S_IFDOOR linux3 = 0 ∧ S_IFPORT linux3 = 0 ∧ S_IFWHT linux3 = 0
  ∧ (getitem (stat.S_IFMT (st_mode anon_inode)) (file_types linux3)).1
    = ("w", "whiteout")
  ∧ (getitem (stat.S_IFMT (st_mode anon_inode)) (file_types linux3)).1
    ≠ ("?", "unknown")
  ∧ (∃ about,
       stats_of (main seconds_repr proc_sys argv (file_types linux3)).1 !! 0%nat
       = Some about
       ∧ odict_get about "filetype" = Some (VStr "whiteout")
       ∧ odict_get about "mode_str" = Some (VStr "wrw------- "))
  ∧ (getitem (stat.S_IFMT (st_mode anon_inode)) (file_types linux_before_3_4)).1
    = ("?", "unknown")
  ∧ (∃ about,
       stats_of (main seconds_repr proc_sys argv (file_types linux_before_3_4)).1 !! 0%nat
       = Some about
       ∧ odict_get about "filetype" = Some (VStr "unknown")
       ∧ odict_get about "mode_str" = Some (VStr "?rw------- ")).
Proof.
  intros argv. subst argv.
  split; [reflexivity|].
  split; [apply (bool_decide_unpack _); reflexivity|].
  repeat (split; [reflexivity|]).
  split; [discriminate|].
  split; [eexists; repeat split|].
  split; [reflexivity|].
  eexists; repeat split.
Qed.

(** On a system without whiteouts [S_IFWHT] is 0, so 0 is a key of the
    table there, and its entry answers for a mode that has no type bits. *)
Example no_type_bits_on_linux :
  stat.S_IFMT 0x180 = 0
  ∧ (getitem (stat.S_IFMT 0x180) (file_types linux3)).1 = ("w", "whiteout")
  ∧ (strmode 0x180 (file_types linux3)).1 = "wrw------- ".
Proof. repeat split. Qed.

Lemma file_types_lookup_witness :
  platform_ok solaris3
  ∧ (stat.S_IFMT 0x31A4 ∉ dom (file_types solaris3))
  ∧ (getitem stat.S_IFREG (after_lookups [0x3000; stat.S_IFREG] (file_types solaris3))).1
    = ("-", "regular_file")
  ∧ (getitem (stat.S_IFMT 0x31A4)
       (after_lookups [0x3000; stat.S_IFREG] (file_types solaris3))).1
    = ("?", "unknown").
Proof.
  assert (Hnot : stat.S_IFMT 0x31A4 ∉ dom (file_types solaris3))
    by (apply not_elem_of_dom; reflexivity).
  split; [exact solaris3_ok|]. split; [exact Hnot|].
  destruct (file_types_lookup solaris3 [0x3000; stat.S_IFREG] 0x31A4 solaris3_ok)
    as (_ & _ & _ & _ & _ & Hreg & _ & _ & Hmiss).
  split; [exact Hreg|exact (Hmiss Hnot)].
Defined.

(** With a comma and a blank as the item separator the document would have
    a blank at the end of each line that ends a member; the program writes
    the comma alone. *)
Lemma item_separator_counterexample :
  let out := (main seconds_repr sample_sys ["statjson"; "missing"] (file_types linux3)).1 in
  stdout out ≠ print (dumps seconds_repr 4 ", " ": " (VList (map VDict (stats_of out)))).
Proof. vm_compute. discriminate. Qed.

Lemma stdout_layout_witness :
  let out := (main seconds_repr sample_sys sample_argv (file_types linux3)).1 in
  drop 1 sample_argv !! 0%nat = Some "notes.txt"
  ∧ ∃ about, stats_of out !! 0%nat = Some about
      ∧ keys about = (core_keys ++ ["blocks"; "block_size"; "rdev"])%list.
Proof.
  intros out. subst out. split; [reflexivity|].
  destruct (stdout_layout seconds_repr sample_sys linux3 sample_argv)
    as (_ & _ & Hkeys).
  destruct (Hkeys 0%nat "notes.txt" eq_refl) as (about & Habout & _ & Hk).
  exists about. split; [exact Habout|]. exact (proj1 Hk).
Defined.

Lemma unknown_owner_name_witness :
  drop 1 sample_argv !! 0%nat = Some "notes.txt"
  ∧ os_stat sample_sys 0 "notes.txt" = inr notes_txt
  ∧ pwd_getpwuid sample_sys 0 (st_uid notes_txt) = None
  ∧ ∃ about,
      stats_of (main seconds_repr sample_sys sample_argv (file_types linux3)).1 !! 0%nat
      = Some about
      ∧ odict_get about "success" = Some (VBool true)
      ∧ odict_get about "owner" = Some (VDict [("uid", VInt 1234); ("name", VNone)])
      ∧ odict_get about "group" = Some (VDict [("gid", VInt 100); ("name", VNone)]).
Proof.
  repeat (split; [reflexivity|]).
  destruct (unknown_owner_name seconds_repr sample_sys linux3 sample_argv
              0 "notes.txt" notes_txt eq_refl eq_refl)
    as (about & Habout & Hsuccess & Howner & Hgroup).
  exists about. split; [exact Habout|]. split; [exact Hsuccess|].
  split; [exact (Howner eq_refl)|exact (Hgroup eq_refl)].
Defined.

Lemma mode_octal_round_trip_witness :
  drop 1 sample_argv !! 0%nat = Some "notes.txt"
  ∧ os_stat sample_sys 0 "notes.txt" = inr notes_txt
  ∧ 0 ≤ st_mode notes_txt
  ∧ ∃ about,
      stats_of (main seconds_repr sample_sys sample_argv (file_types linux3)).1 !! 0%nat
      = Some about
      ∧ odict_get about "mode" = Some (VInt 33188)
      ∧ odict_get about "mode_octal" = Some (VStr "0100644")
      ∧ int_of_octal "0100644" = Some 33188.
Proof.
  assert (Hmode : 0 ≤ st_mode notes_txt) by (simpl; lia).
  split; [reflexivity|]. split; [reflexivity|]. split; [exact Hmode|].
  destruct (mode_octal_round_trip seconds_repr sample_sys linux3 sample_argv
              0 "notes.txt" notes_txt eq_refl eq_refl Hmode)
    as (about & mode_octal & Habout & Hm & Ho & Hdigits & Hint).
  exists about. split; [exact Habout|]. split; [exact Hm|].
  split; [rewrite Ho, Hdigits; reflexivity|reflexivity].
Defined.

Lemma filetype_matches_symbol_witness :
  drop 1 sample_argv !! 2%nat = Some "home"
  ∧ os_stat sample_sys 2 "home" = inr home_dir
  ∧ ∃ about rest,
      stats_of (main seconds_repr sample_sys sample_argv (file_types linux3)).1 !! 2%nat
      = Some about
      ∧ odict_get about "filetype" = Some (VStr "directory")
      ∧ odict_get about "mode_str" = Some (VStr (String "d" rest)).
Proof.
  split; [reflexivity|]. split; [reflexivity|].
  destruct (filetype_matches_symbol seconds_repr sample_sys linux3 sample_argv
              2 "home" home_dir eq_refl eq_refl)
    as (about & symbol & name & rest & Habout & Hentry & Htype & Hstr & _ & _).
  injection Hentry as <- <-.
  exists about, rest. split; [exact Habout|]. split; [exact Htype|exact Hstr].
Defined.

(** ** The further theorems at the sample system *)

Lemma strmode_determines_permissions_witness :
  (strmode 0x81A4 (after_lookups [] (file_types linux3))).1
  = (strmode 0x181A4 (after_lookups [0x3000] (file_types linux3))).1
  ∧ stat.S_IMODE 0x81A4 = stat.S_IMODE 0x181A4.
Proof.
  assert (Heq : (strmode 0x81A4 (after_lookups [] (file_types linux3))).1
                = (strmode 0x181A4 (after_lookups [0x3000] (file_types linux3))).1)
    by reflexivity.
  split; [exact Heq|].
  exact (proj1 (strmode_determines_permissions linux3 [] [0x3000] 0x81A4 0x181A4 Heq)).
Defined.

Lemma lookups_keep_answers_witness :
  after_lookups [0x3000] (file_types linux3) !! 0x3000 = Some default_factory
  ∧ (file_types linux3 !! 0x3000 = Some default_factory
     ∨ (0x3000 ∈ [0x3000] ∧ default_factory = default_factory)).
Proof.
  assert (Hnew : after_lookups [0x3000] (file_types linux3) !! 0x3000
                 = Some default_factory) by reflexivity.
  split; [exact Hnew|].
  destruct (lookups_keep_answers [0x3000] (file_types linux3)) as (_ & _ & Hfrom).
  exact (Hfrom 0x3000 default_factory Hnew).
Defined.

Lemma success_record_fields_witness :
  drop 1 sample_argv !! 0%nat = Some "notes.txt"
  ∧ os_stat sample_sys 0 "notes.txt" = inr notes_txt
  ∧ ∃ about,
      stats_of (main seconds_repr sample_sys sample_argv (file_types linux3)).1 !! 0%nat
      = Some about
      ∧ odict_get about "inode" = Some (VInt 42)
      ∧ odict_get about "size" = Some (VInt 12)
      ∧ odict_get about "modify_time" = Some (VFloat 1500000002).
Proof.
  split; [reflexivity|]. split; [reflexivity|].
  destruct (success_record_fields seconds_repr sample_sys linux3 sample_argv
              0 "notes.txt" notes_txt eq_refl eq_refl)
    as (about & Habout & _ & _ & _ & Hino & _ & _ & Hsize & _ & Hmtime & _).
  exists about. split; [exact Habout|]. split; [exact Hino|].
  split; [exact Hsize|exact Hmtime].
Defined.

Lemma known_owner_name_witness :
  drop 1 sample_argv !! 2%nat = Some "home"
  ∧ os_stat sample_sys 2 "home" = inr home_dir
  ∧ pwd_getpwuid sample_sys 2 (st_uid home_dir) = Some "root"
  ∧ ∃ about,
      stats_of (main seconds_repr sample_sys sample_argv (file_types linux3)).1 !! 2%nat
      = Some about
      ∧ odict_get about "owner" = Some (VDict [("uid", VInt 0); ("name", VStr "root")]).
Proof.
  repeat (split; [reflexivity|]).
  destruct (known_owner_name seconds_repr sample_sys linux3 sample_argv
              2 "home" home_dir eq_refl eq_refl) as (about & Habout & Howner & _).
  exists about. split; [exact Habout|exact (Howner "root" eq_refl)].
Defined.

Lemma block_size_is_extra : ("st_blksize", "block_size") ∈ extra_fields.
Proof. apply (bool_decide_unpack _). vm_compute. reflexivity. Defined.

Lemma extra_field_lookup_witness :
  drop 1 sample_argv !! 0%nat = Some "notes.txt"
  ∧ os_stat sample_sys 0 "notes.txt" = inr notes_txt
  ∧ ("st_blksize", "block_size") ∈ extra_fields
  ∧ ∃ about : list (string * value Z),
      stats_of (main seconds_repr sample_sys sample_argv (file_types linux3)).1 !! 0%nat
      = Some about
      ∧ odict_get about "block_size" = Some (VInt 4096).
Proof.
  split; [reflexivity|]. split; [reflexivity|]. split; [exact block_size_is_extra|].
  destruct (extra_field_lookup seconds_repr sample_sys linux3 sample_argv
              0 "notes.txt" notes_txt "st_blksize" "block_size"
              eq_refl eq_refl block_size_is_extra) as (about & Habout & Hget & _).
  exists about. split; [exact Habout|exact Hget].
Defined.

Lemma record_success_or_error_witness :
  drop 1 sample_argv !! 1%nat = Some "missing"
  ∧ ∃ about,
      stats_of (main seconds_repr sample_sys sample_argv (file_types linux3)).1 !! 1%nat
      = Some about
      ∧ odict_get about "success" = Some (VBool false)
      ∧ is_Some (odict_get about "error").
Proof.
  split; [reflexivity|].
  destruct (record_success_or_error seconds_repr sample_sys linux3 sample_argv
              1 "missing" eq_refl) as (about & Habout & _ & Hsuccess & Herror & _).
  exists about. split; [exact Habout|]. split; [exact Hsuccess|].
  apply Herror. reflexivity.
Defined.

Lemma other_sys_same_answers :
  ∀ i p, drop 1 sample_argv !! i = Some p → same_answers_for sample_sys i p other_sys.
Proof.
  intros [|[|[|i]]] p Hp; simpl in Hp; try discriminate Hp; injection Hp as <-.
  - split; [reflexivity|].
    intros st Hst. injection Hst as <-. repeat split.
  - split; [reflexivity|].
    intros st Hst. discriminate Hst.
  - split; [reflexivity|].
    intros st Hst. injection Hst as <-. repeat split.
Defined.

Lemma main_same_answers_witness :
  (∀ i p, drop 1 sample_argv !! i = Some p → same_answers_for sample_sys i p other_sys)
  ∧ main seconds_repr other_sys sample_argv (file_types linux3)
    = main seconds_repr sample_sys sample_argv (file_types linux3).
Proof.
  split; [exact other_sys_same_answers|].
  exact (main_same_answers seconds_repr sample_sys linux3 other_sys sample_argv
           other_sys_same_answers).
Defined.

Lemma odict_set_spec_witness :
  NoDup (keys [("filename", @VStr Z "home"); ("success", VBool true)])
  ∧ NoDup (keys (odict_set [("filename", @VStr Z "home"); ("success", VBool true)]
                   "success" (VBool false))).
Proof.
  assert (Hnd : NoDup (keys [("filename", @VStr Z "home"); ("success", VBool true)]))
    by (apply (bool_decide_unpack _); vm_compute; reflexivity).
  split; [exact Hnd|].
  destruct (odict_set_spec [("filename", @VStr Z "home"); ("success", VBool true)]
              "success" (VBool false)) as (_ & _ & _ & Hkeep).
  exact (Hkeep Hnd).
Defined.

Lemma odict_set_in_spec_witness :
  odict_get [("links", @VInt Z 1); ("owner", VDict [])] "owner" = Some (VDict [])
  ∧ odict_get (odict_set_in [("links", @VInt Z 1); ("owner", VDict [])]
                 "owner" "uid" (VInt 0)) "owner"
    = Some (VDict [("uid", VInt 0)]).
Proof.
  split; [reflexivity|].
  exact (proj1 (odict_set_in_spec [("links", @VInt Z 1); ("owner", VDict [])] []
                  "owner" "uid" (VInt 0) eq_refl)).
Defined.

Lemma record_filetype_witness :
  platform_ok linux3
  ∧ drop 1 sample_argv !! 2%nat = Some "home"
  ∧ os_stat sample_sys 2 "home" = inr home_dir
  ∧ file_types_literal !! stat.S_IFMT (st_mode home_dir) = Some ("d", "directory")
  ∧ ∃ about,
      stats_of (main seconds_repr sample_sys sample_argv (file_types linux3)).1 !! 2%nat
      = Some about
      ∧ odict_get about "filetype" = Some (VStr "directory").
Proof.
  split; [exact linux3_ok|]. repeat (split; [reflexivity|]).
  destruct (record_filetype seconds_repr sample_sys linux3 sample_argv
              2 "home" home_dir linux3_ok eq_refl eq_refl)
    as (about & Habout & Hknown & _).
  exists about. split; [exact Habout|].
  exact (proj1 (Hknown "d" "directory" eq_refl)).
Defined.

Lemma strmode_length_witness :
  fits_mode_t 0x31A4
  ∧ String.length (strmode 0x31A4 (after_lookups [0x3000] (file_types linux3))).1
    = 11%nat.
Proof.
  assert (Hfits : fits_mode_t 0x31A4) by (unfold fits_mode_t; lia).
  split; [exact Hfits|].
  exact (proj1 (strmode_length linux3 [0x3000] 0x31A4 Hfits)).
Defined.
